(** * useAuth: the mock authentication / session hook

    A shallow embedding of [hooks/useAuth.ts]: the [mockApi] object
    ([register], [login]) and the operations of the hook ([signUp], [signIn],
    [signOut], [updateUser]) together with the session restore run on mount
    ([checkExistingSession]).

    Conventions of the embedding.
    - A JavaScript string is a sequence of UTF-16 code units.  Strings are
      embedded as [string]; an [ascii] stands for a code unit in the range
      0..255 (the Latin-1 block), which is closed under every string
      operation the hook uses.
    - Values follow their TypeScript types: a [User] is a record, and the
      JSON text in the store is the text [JSON.stringify] produces for a
      [User] or a [User[]].  The store is private to the hook, which only
      ever writes such text; any other text is treated as unparsable.
    - [AsyncStorage] is a finite map from string keys to string values.  Each
      call on it may be rejected; the world carries the outcomes of the calls
      to come.
    - An [async] function is run to completion; awaits are sequenced in
      program order (the hook is driven by sequential UI callbacks), and an
      operation sees the [user] of the latest render.
    - A rejected promise / thrown value is an explicit [Throw] outcome.
    - The simulated latency advances the clock of the world. *)

From Stdlib Require Import ZArith NArith Ascii String List Bool Lia DecimalString.
From stdpp Require Import base gmap strings list fin_maps.

Local Open Scope Z_scope.

(* ===================================================================== *)
(** ** ECMAScript built-ins used by the hook *)
(* ===================================================================== *)

Module JS.

(** Code unit of a character. *)
Definition code (c : ascii) : N := N_of_ascii c.

(** The double-quote character U+0022. *)
Definition dquote : ascii := ascii_of_N 34.

(** [WhiteSpace] and [LineTerminator] code points below U+0100:
    TAB, LF, VT, FF, CR, SP and NBSP. *)
Definition isWhiteSpace (c : ascii) : bool :=
  let n := code c in
  ((9 <=? n) && (n <=? 13) || (n =? 32) || (n =? 160))%N.

(** [String.prototype.trimStart]. *)
Fixpoint trimStart (s : string) : string :=
  match s with
  | EmptyString => EmptyString
  | String c s' => if isWhiteSpace c then trimStart s' else s
  end.

(** [String.prototype.trimEnd]. *)
Fixpoint trimEnd (s : string) : string :=
  match s with
  | EmptyString => EmptyString
  | String c s' =>
      match trimEnd s' with
      | EmptyString => if isWhiteSpace c then EmptyString else String c EmptyString
      | t => String c t
      end
  end.

(** [String.prototype.trim]. *)
Definition trim (s : string) : string := trimEnd (trimStart s).

(** Lower-case mapping of one code unit: A-Z, and U+00C0..U+00DE except the
    multiplication sign U+00D7. *)
Definition toLowerCase_char (c : ascii) : ascii :=
  let n := code c in
  if ((65 <=? n) && (n <=? 90) || (192 <=? n) && (n <=? 222) && negb (n =? 215))%N
  then ascii_of_N (n + 32) else c.

(** [String.prototype.toLowerCase]. *)
Fixpoint toLowerCase (s : string) : string :=
  match s with
  | EmptyString => EmptyString
  | String c s' => String (toLowerCase_char c) (toLowerCase s')
  end.

(** [s.startsWith(p)]. *)
Fixpoint startsWith (s p : string) : bool :=
  match p, s with
  | EmptyString, _ => true
  | String _ _, EmptyString => false
  | String a p', String b s' => Ascii.eqb a b && startsWith s' p'
  end.

(** [s.includes(p)]. *)
Fixpoint includes (s p : string) : bool :=
  startsWith s p ||
  match s with
  | EmptyString => false
  | String _ s' => includes s' p
  end.

(** [s.length]. *)
Definition length (s : string) : nat := String.length s.

(** Truthiness of a string: only the empty string is falsy. *)
Definition truthy (s : string) : bool :=
  match s with EmptyString => false | String _ _ => true end.

(** [===] on strings. *)
Definition strict_eq (a b : string) : bool := String.eqb a b.

(** [Number.prototype.toString] on an integral time value. *)
Definition Number_toString (z : Z) : string :=
  NilZero.string_of_int (Z.to_int z).

(** Decimal rendering of a non-negative number, zero-padded on the left to
    [w] digits. *)
Fixpoint pad (w : nat) (n : Z) : string :=
  match w with
  | O => EmptyString
  | S w' => pad w' (n / 10) +:+ String (ascii_of_N (48 + Z.to_N (n mod 10))) EmptyString
  end.

(** Year, month and day of the day number [z] (days since 1970-01-01) in the
    proleptic Gregorian calendar. *)
Definition civil_from_days (z : Z) : Z * Z * Z :=
  let z := z + 719468 in
  let era := z / 146097 in
  let doe := z - era * 146097 in
  let yoe := (doe - doe / 1460 + doe / 36524 - doe / 146096) / 365 in
  let doy := doe - (365 * yoe + yoe / 4 - yoe / 100) in
  let mp := (5 * doy + 2) / 153 in
  let d := doy - (153 * mp + 2) / 5 + 1 in
  let m := if mp <? 10 then mp + 3 else mp - 9 in
  let y := yoe + era * 400 in
  (if m <=? 2 then y + 1 else y, m, d).

(** [Date.prototype.toISOString] of the time value [t] (milliseconds since the
    epoch, within the range of valid dates). *)
Definition Date_toISOString (t : Z) : string :=
  let '(y, m, d) := civil_from_days (t / 86400000) in
  let ms := t mod 86400000 in
  let year :=
    if (0 <=? y) && (y <=? 9999) then pad 4 y
    else (if y <? 0 then "-" else "+") +:+ pad 6 (Z.abs y) in
  year +:+ "-" +:+ pad 2 m +:+ "-" +:+ pad 2 d +:+ "T" +:+
  pad 2 (ms / 3600000) +:+ ":" +:+ pad 2 (ms / 60000 mod 60) +:+ ":" +:+
  pad 2 (ms / 1000 mod 60) +:+ "." +:+ pad 3 (ms mod 1000) +:+ "Z".

End JS.

(* ===================================================================== *)
(** ** The data model *)
(* ===================================================================== *)

(** [interface User]. *)
Module User.

Record t : Type := mk {
  id : string;
  name : string;
  email : string;
  createdAt : option string
}.

#[global] Instance eq_dec : EqDecision t.
Proof. solve_decision. Defined.

End User.

(** [Partial<User>]: every field may be absent.  (A field explicitly set to
    [undefined], which the type checker lets through, is not represented.) *)
Module Partial.

Record t : Type := mk {
  id : option string;
  name : option string;
  email : option string;
  createdAt : option string
}.

End Partial.

(** Object spread [{ ...user, ...userData }]: a field present in [userData]
    overrides the one of [user]. *)
Definition spread (user : User.t) (userData : Partial.t) : User.t :=
  {| User.id := default (User.id user) (Partial.id userData);
     User.name := default (User.name user) (Partial.name userData);
     User.email := default (User.email user) (Partial.email userData);
     User.createdAt :=
       match Partial.createdAt userData with
       | Some c => Some c
       | None => User.createdAt user
       end |}.

(* ===================================================================== *)
(** ** JSON text of user records *)
(* ===================================================================== *)

Module JSON.

Definition hex_digit (n : N) : ascii :=
  if (n <? 10)%N then ascii_of_N (48 + n) else ascii_of_N (87 + n).

Definition str1 (c : ascii) : string := String c EmptyString.

(** One code unit of [QuoteJSONString]. *)
Definition escape_char (c : ascii) : string :=
  let n := JS.code c in
  if (n =? 8)%N then "\b"
  else if (n =? 9)%N then "\t"
  else if (n =? 10)%N then "\n"
  else if (n =? 12)%N then "\f"
  else if (n =? 13)%N then "\r"
  else if (n =? 34)%N then String "\" (str1 JS.dquote)
  else if (n =? 92)%N then "\\"
  else if (n <? 32)%N then
    "\u00" +:+ String (hex_digit (n / 16)) (str1 (hex_digit (n mod 16)))
  else str1 c.

Fixpoint escape (s : string) : string :=
  match s with
  | EmptyString => EmptyString
  | String c s' => escape_char c +:+ escape s'
  end.

(** [QuoteJSONString]. *)
Definition quote (s : string) : string :=
  String JS.dquote (escape s +:+ str1 JS.dquote).

(** [JSON.stringify] of a [User]: own properties in creation order; an absent
    [createdAt] contributes no member. *)
Definition stringify_User (u : User.t) : string :=
  "{" +:+ quote "id" +:+ ":" +:+ quote (User.id u) +:+
  "," +:+ quote "name" +:+ ":" +:+ quote (User.name u) +:+
  "," +:+ quote "email" +:+ ":" +:+ quote (User.email u) +:+
  match User.createdAt u with
  | Some c => "," +:+ quote "createdAt" +:+ ":" +:+ quote c
  | None => EmptyString
  end +:+ "}".

Fixpoint stringify_elements (us : list User.t) : string :=
  match us with
  | [] => EmptyString
  | [u] => stringify_User u
  | u :: us' => stringify_User u +:+ "," +:+ stringify_elements us'
  end.

(** The text that follows the first element of an array. *)
Fixpoint array_tail (us : list User.t) : string :=
  match us with
  | [] => "]"
  | u :: us' => "," +:+ stringify_User u +:+ array_tail us'
  end.

(** [JSON.stringify] of a [User[]]. *)
Definition stringify_Users (us : list User.t) : string :=
  "[" +:+ stringify_elements us +:+ "]".

(** *** Parsing *)

Definition hex_value (c : ascii) : option N :=
  let n := JS.code c in
  if ((48 <=? n) && (n <=? 57))%N then Some (n - 48)%N
  else if ((97 <=? n) && (n <=? 102))%N then Some (n - 87)%N
  else if ((65 <=? n) && (n <=? 70))%N then Some (n - 55)%N
  else None.

(** Value of a [\uXXXX] escape. *)
Definition hex4 (a b c d : ascii) : option N :=
  match hex_value a, hex_value b, hex_value c, hex_value d with
  | Some x, Some y, Some z, Some w => Some (((x * 16 + y) * 16 + z) * 16 + w)%N
  | _, _, _, _ => None
  end.

Definition cons_fst (c : ascii) (r : option (string * string)) : option (string * string) :=
  match r with
  | Some (s, rest) => Some (String c s, rest)
  | None => None
  end.

(** The characters of a JSON string after its opening quote, up to and
    including the closing quote.  Returns the decoded string and the rest of
    the input.  A code unit above U+00FF is outside the embedding. *)
Fixpoint parse_chars (s : string) : option (string * string) :=
  match s with
  | EmptyString => None
  | String c s' =>
      if Ascii.eqb c JS.dquote then Some (EmptyString, s')
      else if Ascii.eqb c "\" then
        match s' with
        | String e s'' =>
            if Ascii.eqb e JS.dquote then cons_fst JS.dquote (parse_chars s'')
            else if Ascii.eqb e "\" then cons_fst "\" (parse_chars s'')
            else if Ascii.eqb e "/" then cons_fst "/" (parse_chars s'')
            else if Ascii.eqb e "b" then cons_fst (ascii_of_N 8) (parse_chars s'')
            else if Ascii.eqb e "f" then cons_fst (ascii_of_N 12) (parse_chars s'')
            else if Ascii.eqb e "n" then cons_fst (ascii_of_N 10) (parse_chars s'')
            else if Ascii.eqb e "r" then cons_fst (ascii_of_N 13) (parse_chars s'')
            else if Ascii.eqb e "t" then cons_fst (ascii_of_N 9) (parse_chars s'')
            else if Ascii.eqb e "u" then
              match s'' with
              | String h1 (String h2 (String h3 (String h4 r))) =>
                  match hex4 h1 h2 h3 h4 with
                  | Some n =>
                      if (n <? 256)%N then cons_fst (ascii_of_N n) (parse_chars r)
                      else None
                  | None => None
                  end
              | _ => None
              end
            else None
        | EmptyString => None
        end
      else if (JS.code c <? 32)%N then None
      else cons_fst c (parse_chars s')
  end.

(** Strip the literal [p] from the front of the input. *)
Fixpoint expect (p s : string) : option string :=
  match p, s with
  | EmptyString, _ => Some s
  | String a p', String b s' => if Ascii.eqb a b then expect p' s' else None
  | String _ _, EmptyString => None
  end.

(** A JSON string preceded by the literal [p]. *)
Definition parse_member (p s : string) : option (string * string) :=
  match expect (p +:+ str1 JS.dquote) s with
  | Some s1 => parse_chars s1
  | None => None
  end.

(** A [User] object; returns the record and the rest of the input. *)
Definition parse_User_prefix (s : string) : option (User.t * string) :=
  match parse_member ("{" +:+ quote "id" +:+ ":") s with
  | Some (i, s1) =>
      match parse_member ("," +:+ quote "name" +:+ ":") s1 with
      | Some (n, s2) =>
          match parse_member ("," +:+ quote "email" +:+ ":") s2 with
          | Some (e, s3) =>
              match expect "}" s3 with
              | Some rest => Some (User.mk i n e None, rest)
              | None =>
                  match parse_member ("," +:+ quote "createdAt" +:+ ":") s3 with
                  | Some (c, s4) =>
                      match expect "}" s4 with
                      | Some rest => Some (User.mk i n e (Some c), rest)
                      | None => None
                      end
                  | None => None
                  end
              end
          | None => None
          end
      | None => None
      end
  | None => None
  end.

(** [JSON.parse] at type [User]; [None] stands for the [SyntaxError]. *)
Definition parse_User (s : string) : option User.t :=
  match parse_User_prefix s with
  | Some (u, EmptyString) => Some u
  | _ => None
  end.

(** The elements of an array after the first, up to the closing bracket.
    Every element consumes input, so the length of the input bounds the
    number of iterations. *)
Fixpoint parse_more (fuel : nat) (s : string) : option (list User.t) :=
  match fuel with
  | O => None
  | S fuel' =>
      match s with
      | String c s' =>
          if Ascii.eqb c "]" then
            match s' with EmptyString => Some [] | String _ _ => None end
          else if Ascii.eqb c "," then
            match parse_User_prefix s' with
            | Some (u, rest) =>
                match parse_more fuel' rest with
                | Some us => Some (u :: us)
                | None => None
                end
            | None => None
            end
          else None
      | EmptyString => None
      end
  end.

(** [JSON.parse] at type [User[]]; [None] stands for the [SyntaxError]. *)
Definition parse_Users (s : string) : option (list User.t) :=
  match s with
  | String c s' =>
      if Ascii.eqb c "[" then
        match s' with
        | String d s'' =>
            if Ascii.eqb d "]" then
              match s'' with EmptyString => Some [] | String _ _ => None end
            else
              match parse_User_prefix s' with
              | Some (u, rest) =>
                  match parse_more (String.length rest) rest with
                  | Some us => Some (u :: us)
                  | None => None
                  end
              | None => None
              end
        | EmptyString => None
        end
      else None
  | EmptyString => None
  end.

End JSON.

(* ===================================================================== *)
(** ** The world the hook runs in *)
(* ===================================================================== *)

(** A thrown value / rejection reason: an [Error] instance carrying its
    [message], or some value that is not an [Error]. *)
Inductive Thrown : Type :=
  | Error (message : string)
  | NonError.

(** React state of the hook: the three [useState] cells. *)
Module Hook.

Record t : Type := mk {
  user : option User.t;
  loading : bool;
  error : option string
}.

(** Initial values passed to [useState]. *)
Definition initial : t := mk None false None.

End Hook.

Record World : Type := mkWorld {
  storage : gmap string string;          (* contents of AsyncStorage *)
  faults : list (option Thrown);         (* fate of the coming AsyncStorage calls *)
  now : Z;                               (* wall clock, in milliseconds *)
  Platform_OS : string;                  (* Platform.OS *)
  console : list (string * Thrown);      (* console.error calls, oldest first *)
  alerts : list string;                  (* alert calls, oldest first *)
  hook : Hook.t
}.

Definition with_storage (st : gmap string string) (w : World) : World :=
  mkWorld st (faults w) (now w) (Platform_OS w) (console w) (alerts w) (hook w).
Definition with_faults (fs : list (option Thrown)) (w : World) : World :=
  mkWorld (storage w) fs (now w) (Platform_OS w) (console w) (alerts w) (hook w).
Definition with_now (t : Z) (w : World) : World :=
  mkWorld (storage w) (faults w) t (Platform_OS w) (console w) (alerts w) (hook w).
Definition with_console (c : list (string * Thrown)) (w : World) : World :=
  mkWorld (storage w) (faults w) (now w) (Platform_OS w) c (alerts w) (hook w).
Definition with_alerts (a : list string) (w : World) : World :=
  mkWorld (storage w) (faults w) (now w) (Platform_OS w) (console w) a (hook w).
Definition with_hook (h : Hook.t) (w : World) : World :=
  mkWorld (storage w) (faults w) (now w) (Platform_OS w) (console w) (alerts w) h.

(** *** Asynchronous computations *)

Inductive Outcome (A : Type) : Type :=
  | Return (a : A)
  | Throw (e : Thrown).
Arguments Return {A} a.
Arguments Throw {A} e.

Definition Async (A : Type) : Type := World -> Outcome A * World.

Definition ret {A} (a : A) : Async A := fun w => (Return a, w).

Definition throw {A} (e : Thrown) : Async A := fun w => (Throw e, w).

Definition bind {A B} (m : Async A) (k : A -> Async B) : Async B :=
  fun w =>
    match m w with
    | (Return a, w') => k a w'
    | (Throw e, w') => (Throw e, w')
    end.

Declare Scope async_scope.
Delimit Scope async_scope with async.
Notation "'do' x <- m ; k" := (bind m (fun x => k))
  (at level 10, x name, m at level 100, k at level 200) : async_scope.
Notation "'run' m ; k" := (bind m (fun _ => k))
  (at level 10, m at level 100, k at level 200) : async_scope.
Local Open Scope async_scope.

(** [try { body } catch (err) { handler err }]. *)
Definition try_catch {A} (body : Async A) (handler : Thrown -> Async A) : Async A :=
  fun w =>
    match body w with
    | (Return a, w') => (Return a, w')
    | (Throw e, w') => handler e w'
    end.

(** [try { body } finally { fin }]: [fin] runs on both exits and the outcome
    of [body] stands unless [fin] itself throws. *)
Definition try_finally {A} (body : Async A) (fin : Async unit) : Async A :=
  fun w =>
    match body w with
    | (r, w') =>
        match fin w' with
        | (Return _, w'') => (r, w'')
        | (Throw e, w'') => (Throw e, w'')
        end
    end.

Definition when (b : bool) (m : Async unit) : Async unit :=
  if b then m else ret tt.

(** *** React state setters and readers *)

Definition setUser (u : option User.t) : Async unit := fun w =>
  (Return tt, with_hook (Hook.mk u (Hook.loading (hook w)) (Hook.error (hook w))) w).
Definition setLoading (b : bool) : Async unit := fun w =>
  (Return tt, with_hook (Hook.mk (Hook.user (hook w)) b (Hook.error (hook w))) w).
Definition setError (e : option string) : Async unit := fun w =>
  (Return tt, with_hook (Hook.mk (Hook.user (hook w)) (Hook.loading (hook w)) e) w).

(** The [user] the operation's closure sees. *)
Definition getUser : Async (option User.t) := fun w =>
  (Return (Hook.user (hook w)), w).

(** *** Environment *)

(** [await new Promise(resolve => setTimeout(resolve, ms))]. *)
Definition delay (ms : Z) : Async unit := fun w =>
  (Return tt, with_now (now w + ms) w).

(** [Date.now()] and the time value of [new Date()]. *)
Definition Date_now : Async Z := fun w => (Return (now w), w).

Definition console_error (label : string) (err : Thrown) : Async unit := fun w =>
  (Return tt, with_console (console w ++ [(label, err)]) w).

Definition alert (msg : string) : Async unit := fun w =>
  (Return tt, with_alerts (alerts w ++ [msg]) w).

Definition getPlatform_OS : Async string := fun w => (Return (Platform_OS w), w).

(** [err instanceof Error ? err.message : fallback]. *)
Definition errorMessage (err : Thrown) (fallback : string) : string :=
  match err with
  | Error m => m
  | NonError => fallback
  end.

(** *** AsyncStorage *)

Module AsyncStorage.

(** One call on the store.  The head of [faults] decides whether the promise
    rejects; when [faults] is exhausted the call succeeds. *)
Definition call {A} (f : gmap string string -> A * gmap string string) : Async A :=
  fun w =>
    match faults w with
    | Some e :: fs => (Throw e, with_faults fs w)
    | None :: fs =>
        let '(a, st) := f (storage w) in (Return a, with_storage st (with_faults fs w))
    | [] =>
        let '(a, st) := f (storage w) in (Return a, with_storage st w)
    end.

Definition getItem (key : string) : Async (option string) :=
  call (fun st => (st !! key, st)).

Definition setItem (key value : string) : Async unit :=
  call (fun st => (tt, <[key := value]> st)).

Definition removeItem (key : string) : Async unit :=
  call (fun st => (tt, delete key st)).

End AsyncStorage.

(** Message of the [SyntaxError] thrown by [JSON.parse] (the text is the
    engine's own). *)
Definition SyntaxError_message : string := "JSON Parse error".

Definition JSON_parse_User (s : string) : Async User.t :=
  match JSON.parse_User s with
  | Some u => ret u
  | None => throw (Error SyntaxError_message)
  end.

Definition JSON_parse_Users (s : string) : Async (list User.t) :=
  match JSON.parse_Users s with
  | Some us => ret us
  | None => throw (Error SyntaxError_message)
  end.

(** [existingUsers ? JSON.parse(existingUsers) : []]. *)
Definition parse_or_empty (existingUsers : option string) : Async (list User.t) :=
  match existingUsers with
  | Some s => if JS.truthy s then JSON_parse_Users s else ret []
  | None => ret []
  end.

(* ===================================================================== *)
(** ** [mockApi] *)
(* ===================================================================== *)

Module mockApi.

Definition register (name email password : string) : Async User.t :=
  run delay 1500;
  if negb (JS.includes email "@") then throw (Error "Invalid email format")
  else if (JS.length password <? 8)%nat then
    throw (Error "Password must be at least 8 characters")
  else
    do existingUsers <- AsyncStorage.getItem "users";
    do users <- parse_or_empty existingUsers;
    if existsb (fun u => JS.strict_eq (User.email u) email) users then
      throw (Error "User already exists with this email")
    else
      do t_id <- Date_now;
      do t_created <- Date_now;
      let newUser :=
        {| User.id := JS.Number_toString t_id;
           User.name := name;
           User.email := email;
           User.createdAt := Some (JS.Date_toISOString t_created) |} in
      run AsyncStorage.setItem "users" (JSON.stringify_Users (users ++ [newUser]));
      ret newUser.

Definition login (email password : string) : Async User.t :=
  run delay 1000;
  do existingUsers <- AsyncStorage.getItem "users";
  do users <- parse_or_empty existingUsers;
  match List.find (fun u => JS.strict_eq (User.email u) email) users with
  | None => throw (Error "Invalid email or password")
  | Some user => ret user
  end.

End mockApi.

(* ===================================================================== *)
(** ** The hook's operations *)
(* ===================================================================== *)

Definition checkExistingSession : Async unit :=
  try_finally
    (try_catch
       (run setLoading true;
        do savedUser <- AsyncStorage.getItem "currentUser";
        match savedUser with
        | Some s =>
            if JS.truthy s then
              do u <- JSON_parse_User s;
              setUser (Some u)
            else ret tt
        | None => ret tt
        end)
       (fun err => console_error "Failed to restore session:" err))
    (setLoading false).

Definition signUp (name email password : string) : Async unit :=
  try_finally
    (try_catch
       (run setLoading true;
        run setError None;
        if negb (JS.truthy (JS.trim name)) || negb (JS.truthy (JS.trim email))
           || negb (JS.truthy password)
        then throw (Error "All fields are required")
        else if (JS.length password <? 8)%nat then
          throw (Error "Password must be at least 8 characters long")
        else if negb (JS.includes email "@") || negb (JS.includes email ".") then
          throw (Error "Please enter a valid email address")
        else
          do newUser <- mockApi.register (JS.trim name)
                          (JS.toLowerCase (JS.trim email)) password;
          run AsyncStorage.setItem "currentUser" (JSON.stringify_User newUser);
          run setUser (Some newUser);
          do os <- getPlatform_OS;
          when (JS.strict_eq os "web") (alert "Account created successfully!"))
       (fun err =>
          run setError (Some (errorMessage err "Registration failed"));
          throw err))
    (setLoading false).

Definition signIn (email password : string) : Async unit :=
  try_finally
    (try_catch
       (run setLoading true;
        run setError None;
        if negb (JS.truthy (JS.trim email)) || negb (JS.truthy password)
        then throw (Error "Email and password are required")
        else
          do loggedInUser <- mockApi.login (JS.toLowerCase (JS.trim email)) password;
          run AsyncStorage.setItem "currentUser" (JSON.stringify_User loggedInUser);
          setUser (Some loggedInUser))
       (fun err =>
          run setError (Some (errorMessage err "Login failed"));
          throw err))
    (setLoading false).

Definition signOut : Async unit :=
  try_finally
    (try_catch
       (run setLoading true;
        run AsyncStorage.removeItem "currentUser";
        setUser None)
       (fun err => console_error "Sign out error:" err))
    (setLoading false).

Definition updateUser (userData : Partial.t) : Async unit :=
  try_catch
    (do current <- getUser;
     match current with
     | None => throw (Error "No user logged in")
     | Some user =>
         let updatedUser := spread user userData in
         run AsyncStorage.setItem "currentUser" (JSON.stringify_User updatedUser);
         do existingUsers <- AsyncStorage.getItem "users";
         run match existingUsers with
             | Some s =>
                 if JS.truthy s then
                   do users <- JSON_parse_Users s;
                   let updatedUsers :=
                     map (fun u => if JS.strict_eq (User.id u) (User.id user)
                                   then updatedUser else u) users in
                   AsyncStorage.setItem "users" (JSON.stringify_Users updatedUsers)
                 else ret tt
             | None => ret tt
             end;
         setUser (Some updatedUser)
     end)
    (fun err =>
       run setError (Some (errorMessage err "Update failed"));
       throw err).

(* ===================================================================== *)
(** ** What the store holds, as the hook reads it back *)
(* ===================================================================== *)

(** The list in the [users] slot, read the way [mockApi] reads it: an absent
    or empty value is the empty list; [None] when the value does not parse. *)
Definition decode_users (slot : option string) : option (list User.t) :=
  match slot with
  | Some s => if JS.truthy s then JSON.parse_Users s else Some []
  | None => Some []
  end.

Definition persisted_users (w : World) : option (list User.t) :=
  decode_users (storage w !! "users").

(** The record in the [currentUser] slot, if there is one and it parses. *)
Definition persisted_currentUser (w : World) : option User.t :=
  match storage w !! "currentUser" with
  | Some s => JSON.parse_User s
  | None => None
  end.

(** The e-mail address as [signUp] and [signIn] hand it to [mockApi]. *)
Definition normalize (email : string) : string := JS.toLowerCase (JS.trim email).

(** [u.email === email], the test of [some] and [find] in [mockApi]. *)
Definition has_email (email : string) (u : User.t) : bool :=
  JS.strict_eq (User.email u) email.

(** The record [mockApi.register] creates in world [w]: the clock is read
    after the simulated latency. *)
Definition registered (w : World) (name email : string) : User.t :=
  {| User.id := JS.Number_toString (now w + 1500);
     User.name := name;
     User.email := email;
     User.createdAt := Some (JS.Date_toISOString (now w + 1500)) |}.

(** The world a successful [signUp] leaves behind, when [us] is the list it
    found in the store and [u] the record it created. *)
Definition signed_up (w : World) (us : list User.t) (u : User.t) : World :=
  mkWorld
    (<["currentUser" := JSON.stringify_User u]>
       (<["users" := JSON.stringify_Users (us ++ [u])]> (storage w)))
    (faults w) (now w + 1500) (Platform_OS w) (console w)
    (if JS.strict_eq (Platform_OS w) "web"
     then alerts w ++ ["Account created successfully!"] else alerts w)
    (Hook.mk (Some u) false None).

(** The world a successful [signIn] leaves behind, [u] being the record found. *)
Definition signed_in_as (w : World) (u : User.t) : World :=
  mkWorld
    (<["currentUser" := JSON.stringify_User u]> (storage w))
    (faults w) (now w + 1000) (Platform_OS w) (console w) (alerts w)
    (Hook.mk (Some u) false None).

(** The world a failed [signUp] or [signIn] leaves behind when the failure
    [msg] arises after a simulated latency of [ms] and before any write. *)
Definition rejected (w : World) (ms : Z) (msg : string) : World :=
  with_hook (Hook.mk (Hook.user (hook w)) false (Some msg)) (with_now (now w + ms) w).

(* ===================================================================== *)
(** ** Sample data *)
(* ===================================================================== *)

Module Sample.

Definition ann : User.t :=
  {| User.id := "1700000000000";
     User.name := "Ann";
     User.email := "ann@ex.co";
     User.createdAt := Some "2023-11-14T22:13:20.000Z" |}.

(** An empty store, a reliable store, nobody signed in. *)
Definition fresh : World :=
  mkWorld ∅ [] 1700000000000 "ios" [] [] Hook.initial.

(** Ann is registered and signed in. *)
Definition ann_store : gmap string string :=
  <["currentUser" := JSON.stringify_User ann]>
    (<["users" := JSON.stringify_Users [ann]]> ∅).

Definition signed_in (fs : list (option Thrown)) : World :=
  mkWorld ann_store fs 1700000100000 "ios" [] [] (Hook.mk (Some ann) false None).

(** Ann is registered, nobody is signed in. *)
Definition signed_out : World :=
  mkWorld (<["users" := JSON.stringify_Users [ann]]> ∅) [] 1700000100000 "ios" [] []
    Hook.initial.

Definition rename : Partial.t := Partial.mk None (Some "Annie") None None.

Definition unavailable : Thrown := Error "storage unavailable".

End Sample.

(* ===================================================================== *)
(** ** The registration screen *)
(* ===================================================================== *)

(** [screens/RegisterScreen.tsx]: the handlers of the form.  The layout, the
    styles and the visibility toggles of the password fields carry no logic
    and are left out. *)
Module RegisterScreen.

(** The [useState] cells the handlers read. *)
Record Form : Type := mkForm {
  fullName : string;
  email : string;
  password : string;
  confirmPassword : string;
  agreeToTerms : bool
}.

(** The screen: its form, the world of its [useAuth] instance, the dialogs
    shown through [Alert.alert] (title and message) and the routes handed to
    [navigation.navigate], oldest first. *)
Record t : Type := mk {
  form : Form;
  world : World;
  dialogs : list (string * string);
  routes : list string
}.

Definition with_world (w : World) (s : t) : t :=
  mk (form s) w (dialogs s) (routes s).

Definition with_form (f : Form) (s : t) : t :=
  mk f (world s) (dialogs s) (routes s).

(** [Alert.alert(title, message)]. *)
Definition Alert_alert (title message : string) (s : t) : t :=
  mk (form s) (world s) (dialogs s ++ [(title, message)]) (routes s).

(** [navigation.navigate(route)]. *)
Definition navigate (route : string) (s : t) : t :=
  mk (form s) (world s) (dialogs s) (routes s ++ [route]).

(** [(err as Error).message || fallback]: an empty message is falsy; a thrown
    value that is not an [Error] is taken to be an object without a
    [message]. *)
Definition message_or (err : Thrown) (fallback : string) : string :=
  match err with
  | Error m => if JS.truthy m then m else fallback
  | NonError => fallback
  end.

Definition handleRegister (s : t) : t :=
  let f := form s in
  if negb (JS.truthy (fullName f)) || negb (JS.truthy (email f))
     || negb (JS.truthy (password f)) || negb (JS.truthy (confirmPassword f))
  then Alert_alert "Validation" "Please fill in all fields" s
  else if negb (JS.strict_eq (password f) (confirmPassword f))
  then Alert_alert "Validation" "Passwords do not match" s
  else if (JS.length (password f) <? 8)%nat
  then Alert_alert "Validation" "Password must be at least 8 characters long" s
  else if negb (agreeToTerms f)
  then Alert_alert "Validation" "Please agree to the terms and conditions" s
  else
    match signUp (JS.trim (fullName f)) (JS.trim (email f)) (password f) (world s) with
    | (Return _, w') =>
        navigate "Login"
          (Alert_alert "Success" "Account created successfully!" (with_world w' s))
    | (Throw err, w') =>
        Alert_alert "Registration failed"
          (message_or err "Unable to create account") (with_world w' s)
    end.

Definition handleLogin (s : t) : t := navigate "Login" s.

Definition handleSocialRegister (provider : string) (s : t) : t :=
  let demoEmail := JS.toLowerCase provider +:+ "@example.com" in
  match signUp (provider +:+ " User") demoEmail "password" (world s) with
  | (Return _, w') =>
      navigate "Login"
        (Alert_alert "Success" "Account created successfully!" (with_world w' s))
  | (Throw err, w') =>
      Alert_alert "Social registration failed"
        (message_or err "Unable to create account") (with_world w' s)
  end.

(** [e.nativeEvent.key] is [key]. *)
Definition handleKeyPress (key : string) (s : t) : t :=
  if JS.strict_eq (Platform_OS (world s)) "web" && JS.strict_eq key "Enter"
  then handleRegister s else s.

Definition toggleTermsAgreement (s : t) : t :=
  let f := form s in
  with_form (mkForm (fullName f) (email f) (password f) (confirmPassword f)
               (negb (agreeToTerms f))) s.

End RegisterScreen.

(** The replacement [updateUser] applies to every record of the list:
    [u.id === user.id ? updatedUser : u]. *)
Definition replace_by_id (user updatedUser : User.t) (u : User.t) : User.t :=
  if JS.strict_eq (User.id u) (User.id user) then updatedUser else u.

(** A string that does not begin with white space. *)
Definition starts_clean (s : string) : bool :=
  match s with
  | EmptyString => true
  | String c _ => negb (JS.isWhiteSpace c)
  end.

(** The hook as a component mounts it: the initial state, then the effect
    that restores the session. *)
Definition mount (w : World) : Outcome unit * World :=
  checkExistingSession (with_hook Hook.initial w).

(* ===================================================================== *)
(** ** The built-ins on sample inputs *)
(* ===================================================================== *)

Section BuiltinExamples.

Example trim_sample : JS.trim "  Ann B  " = "Ann B".
Proof. reflexivity. Qed.

Example normalize_sample : normalize " Ann@Ex.Co " = "ann@ex.co".
Proof. reflexivity. Qed.

Example includes_sample :
  JS.includes "ann@ex.co" "@" = true /\ JS.includes "ann.ex" "@" = false.
Proof. split; reflexivity. Qed.

Example toISOString_epoch : JS.Date_toISOString 0 = "1970-01-01T00:00:00.000Z".
Proof. reflexivity. Qed.

Example toISOString_sample :
  JS.Date_toISOString 1700000000000 = "2023-11-14T22:13:20.000Z".
Proof. reflexivity. Qed.

Example toISOString_leap_day :
  JS.Date_toISOString 1709210096789 = "2024-02-29T12:34:56.789Z".
Proof. reflexivity. Qed.

Example Number_toString_sample : JS.Number_toString 1700000001500 = "1700000001500".
Proof. reflexivity. Qed.

Example escape_sample :
  JSON.escape (String (ascii_of_N 10) (String (ascii_of_N 1) "a\b"))
    = "\n\u0001a\\b".
Proof. reflexivity. Qed.

Example spread_sample :
  spread Sample.ann Sample.rename
    = User.mk "1700000000000" "Annie" "ann@ex.co" (Some "2023-11-14T22:13:20.000Z").
Proof. reflexivity. Qed.

(** A whole session: register, sign out, sign in with another spelling of the
    address and any password, rename. *)
Example session_sample :
  let '(r, w) :=
    (run signUp "  Ann " " Ann@Ex.Co " "password1";
     run signOut;
     run signIn "ANN@ex.co" "x";
     updateUser Sample.rename) Sample.fresh in
  r = Return tt /\
  Hook.user (hook w)
    = Some (User.mk "1700000001500" "Annie" "ann@ex.co" (Some "2023-11-14T22:13:21.500Z")) /\
  persisted_users w
    = Some [User.mk "1700000001500" "Annie" "ann@ex.co" (Some "2023-11-14T22:13:21.500Z")] /\
  persisted_currentUser w = Hook.user (hook w).
Proof. vm_compute. repeat split. Qed.

End BuiltinExamples.

(* ===================================================================== *)
(** ** Facts about the string built-ins *)
(* ===================================================================== *)

Section StringFacts.

Lemma append_nil_l (b : string) : EmptyString +:+ b = b.
Proof. reflexivity. Qed.

Lemma append_cons (x : ascii) (a b : string) : String x a +:+ b = String x (a +:+ b).
Proof. reflexivity. Qed.

Lemma append_char (x : ascii) (b : string) : String x EmptyString +:+ b = String x b.
Proof. reflexivity. Qed.

Lemma append_assoc (a b c : string) : (a +:+ b) +:+ c = a +:+ (b +:+ c).
Proof.
  induction a as [|x a IH]; [reflexivity|].
  rewrite !append_cons. now f_equal.
Qed.

Lemma length_append (a b : string) :
  String.length (a +:+ b) = (String.length a + String.length b)%nat.
Proof.
  induction a as [|x a IH]; [reflexivity|].
  rewrite append_cons. cbn [String.length]. now rewrite IH.
Qed.

Lemma append_empty_r (a : string) : a +:+ EmptyString = a.
Proof.
  induction a as [|x a IH]; [reflexivity|].
  rewrite append_cons. now f_equal.
Qed.

Lemma includes_char_cons (c d : ascii) (s : string) :
  JS.includes (String d s) (JSON.str1 c) = Ascii.eqb c d || JS.includes s (JSON.str1 c).
Proof.
  unfold JSON.str1. simpl. destruct s; now rewrite andb_true_r.
Qed.

Lemma includes_char_empty (c : ascii) : JS.includes EmptyString (JSON.str1 c) = false.
Proof. reflexivity. Qed.

Lemma trimStart_keeps (c : ascii) (s : string) :
  JS.isWhiteSpace c = false ->
  JS.includes s (JSON.str1 c) = true ->
  JS.includes (JS.trimStart s) (JSON.str1 c) = true.
Proof.
  intros Hc. induction s as [|d s IH]; [easy|].
  rewrite includes_char_cons. intros H. cbn [JS.trimStart].
  destruct (JS.isWhiteSpace d) eqn:Hd.
  - apply IH. destruct (Ascii.eqb_spec c d) as [->|_]; [congruence | exact H].
  - now rewrite includes_char_cons.
Qed.

Lemma trimEnd_keeps (c : ascii) (s : string) :
  JS.isWhiteSpace c = false ->
  JS.includes s (JSON.str1 c) = true ->
  JS.includes (JS.trimEnd s) (JSON.str1 c) = true.
Proof.
  intros Hc. induction s as [|d s IH]; [easy|].
  rewrite includes_char_cons. intros H. cbn [JS.trimEnd].
  destruct (JS.trimEnd s) as [|x t] eqn:Ht.
  - destruct (Ascii.eqb_spec c d) as [->|_].
    + rewrite Hc, includes_char_cons, Ascii.eqb_refl. reflexivity.
    + simpl in H. apply IH in H. discriminate H.
  - rewrite includes_char_cons.
    destruct (Ascii.eqb c d); [reflexivity | now apply IH].
Qed.

Lemma trim_keeps (c : ascii) (s : string) :
  JS.isWhiteSpace c = false ->
  JS.includes s (JSON.str1 c) = true ->
  JS.includes (JS.trim s) (JSON.str1 c) = true.
Proof. intros Hc H. unfold JS.trim. now apply trimEnd_keeps, trimStart_keeps. Qed.

Lemma toLowerCase_keeps (c : ascii) (s : string) :
  JS.toLowerCase_char c = c ->
  JS.includes s (JSON.str1 c) = true ->
  JS.includes (JS.toLowerCase s) (JSON.str1 c) = true.
Proof.
  intros Hc. induction s as [|d s IH]; [easy|].
  cbn [JS.toLowerCase]. rewrite !includes_char_cons.
  destruct (Ascii.eqb_spec c d) as [<-|_].
  - now rewrite Hc, Ascii.eqb_refl.
  - intros H. rewrite IH by exact H. apply orb_true_r.
Qed.

(** Trimming and lower-casing never lose an at-sign. *)
Lemma normalized_keeps_at (email : string) :
  JS.includes email "@" = true ->
  JS.includes (JS.toLowerCase (JS.trim email)) "@" = true.
Proof.
  intros H. apply (toLowerCase_keeps "@"); [reflexivity|].
  apply (trim_keeps "@"); [reflexivity | exact H].
Qed.

Lemma truthy_iff (s : string) : JS.truthy s = true <-> s <> EmptyString.
Proof. destruct s; simpl; split; congruence. Qed.

End StringFacts.

(* ===================================================================== *)
(** ** Decoding inverts encoding *)
(* ===================================================================== *)

Section Codec.

Lemma parse_escape_char (c : ascii) (t : string) :
  JSON.parse_chars (JSON.escape_char c +:+ t) = JSON.cons_fst c (JSON.parse_chars t).
Proof. destruct c as [[] [] [] [] [] [] [] []]; reflexivity. Qed.

Lemma parse_chars_escape (s rest : string) :
  JSON.parse_chars (JSON.escape s +:+ String JS.dquote rest) = Some (s, rest).
Proof.
  induction s as [|c s IH]; [reflexivity|].
  cbn [JSON.escape]. rewrite append_assoc, parse_escape_char, IH. reflexivity.
Qed.

Lemma quote_append (s rest : string) :
  JSON.quote s +:+ rest = String JS.dquote (JSON.escape s +:+ String JS.dquote rest).
Proof. unfold JSON.quote, JSON.str1. now rewrite append_cons, append_assoc. Qed.

Lemma expect_append (p q t : string) :
  JSON.expect (p +:+ q) (p +:+ t) = JSON.expect q t.
Proof.
  induction p as [|a p IH]; [reflexivity|].
  rewrite !append_cons. cbn [JSON.expect]. now rewrite Ascii.eqb_refl.
Qed.

Lemma parse_member_quote (p s rest : string) :
  JSON.parse_member p (p +:+ JSON.quote s +:+ rest) = Some (s, rest).
Proof.
  unfold JSON.parse_member. rewrite quote_append, expect_append.
  unfold JSON.str1. cbn [JSON.expect]. rewrite Ascii.eqb_refl.
  apply parse_chars_escape.
Qed.

Lemma parse_member_key (a k s rest : string) :
  JSON.parse_member (a +:+ JSON.quote k +:+ ":")
    (a +:+ JSON.quote k +:+ ":" +:+ JSON.quote s +:+ rest) = Some (s, rest).
Proof.
  pose proof (parse_member_quote (a +:+ JSON.quote k +:+ ":") s rest) as H.
  now rewrite !append_assoc in H.
Qed.

Lemma expect_close (t : string) : JSON.expect "}" ("}" +:+ t) = Some t.
Proof. reflexivity. Qed.

Lemma expect_close_comma (t : string) : JSON.expect "}" ("," +:+ t) = None.
Proof. reflexivity. Qed.

Lemma parse_User_prefix_stringify (u : User.t) (rest : string) :
  JSON.parse_User_prefix (JSON.stringify_User u +:+ rest) = Some (u, rest).
Proof.
  destruct u as [i n e c]. unfold JSON.stringify_User, JSON.parse_User_prefix.
  cbn [User.id User.name User.email User.createdAt].
  rewrite !append_assoc, !parse_member_key.
  destruct c as [c|].
  - rewrite !append_assoc, expect_close_comma, parse_member_key, expect_close.
    reflexivity.
  - rewrite append_nil_l, expect_close. reflexivity.
Qed.

(** [JSON.parse(JSON.stringify(u))] yields [u] again. *)
Lemma parse_stringify_User (u : User.t) :
  JSON.parse_User (JSON.stringify_User u) = Some u.
Proof.
  unfold JSON.parse_User.
  rewrite <- (append_empty_r (JSON.stringify_User u)), parse_User_prefix_stringify.
  reflexivity.
Qed.

Lemma stringify_elements_tail (u : User.t) (us : list User.t) :
  JSON.stringify_elements (u :: us) +:+ "]" = JSON.stringify_User u +:+ JSON.array_tail us.
Proof.
  revert u. induction us as [|v us IH]; intros u; [reflexivity|].
  change (JSON.stringify_elements (u :: v :: us))
    with (JSON.stringify_User u +:+ "," +:+ JSON.stringify_elements (v :: us)).
  rewrite !append_assoc, IH. reflexivity.
Qed.

Lemma parse_more_tail (us : list User.t) (fuel : nat) :
  (List.length us < fuel)%nat ->
  JSON.parse_more fuel (JSON.array_tail us) = Some us.
Proof.
  revert fuel. induction us as [|u us IH]; intros [|fuel] Hf; simpl in Hf; try lia.
  - reflexivity.
  - cbn [JSON.array_tail]. rewrite (append_char ","). cbn [JSON.parse_more].
    change (Ascii.eqb "," "]") with false. change (Ascii.eqb "," ",") with true.
    cbv iota. rewrite parse_User_prefix_stringify, IH by lia. reflexivity.
Qed.

Lemma array_tail_length (us : list User.t) :
  (List.length us < String.length (JSON.array_tail us))%nat.
Proof.
  induction us as [|u us IH]; [cbn; lia|].
  cbn [JSON.array_tail List.length]. rewrite (append_char ",").
  change (S (List.length us) < S (String.length (JSON.stringify_User u +:+ JSON.array_tail us)))%nat.
  rewrite length_append. lia.
Qed.

Lemma stringify_User_head (u : User.t) :
  exists t, JSON.stringify_User u = String "{" t.
Proof. unfold JSON.stringify_User. rewrite (append_char "{"). eauto. Qed.

(** [JSON.parse(JSON.stringify(us))] yields [us] again. *)
Lemma parse_stringify_Users (us : list User.t) :
  JSON.parse_Users (JSON.stringify_Users us) = Some us.
Proof.
  destruct us as [|u us]; [reflexivity|].
  unfold JSON.stringify_Users. rewrite stringify_elements_tail.
  rewrite (append_char "[").
  destruct (stringify_User_head u) as [t Ht].
  unfold JSON.parse_Users. change (Ascii.eqb "[" "[") with true. cbv iota.
  pose proof (parse_User_prefix_stringify u (JSON.array_tail us)) as Hp.
  rewrite Ht, append_cons in Hp |- *.
  change (Ascii.eqb "{" "]") with false. cbv iota.
  rewrite Hp, parse_more_tail by apply array_tail_length. reflexivity.
Qed.

(** The encoding of a list is never the empty string. *)
Lemma stringify_Users_truthy (us : list User.t) :
  JS.truthy (JSON.stringify_Users us) = true.
Proof. unfold JSON.stringify_Users. rewrite (append_char "["). reflexivity. Qed.

Lemma stringify_User_truthy (u : User.t) :
  JS.truthy (JSON.stringify_User u) = true.
Proof. destruct (stringify_User_head u) as [t ->]. reflexivity. Qed.

End Codec.

(* ===================================================================== *)
(** ** Running [mockApi] *)
(* ===================================================================== *)

(** Compute the control flow of an operation: the monadic plumbing, the state
    setters and the record updates are unfolded; the store, the codec and the
    string built-ins stay folded. *)
Ltac exec :=
  cbv beta iota zeta delta
    [bind ret throw try_catch try_finally when delay Date_now
     setUser setLoading setError getUser console_error alert getPlatform_OS
     AsyncStorage.getItem AsyncStorage.setItem AsyncStorage.removeItem
     AsyncStorage.call JSON_parse_User JSON_parse_Users
     with_storage with_faults with_now with_console with_alerts with_hook
     storage faults now Platform_OS console alerts hook
     Hook.user Hook.loading Hook.error persisted_users persisted_currentUser
     registered negb orb andb fst snd] in *.

(** Settle a closed side condition by evaluation. *)
Ltac evaluate :=
  vm_compute; first [ reflexivity | discriminate | lia ].

Section MockApi.

Lemma parse_or_empty_decode (slot : option string) (w : World) (us : list User.t) :
  decode_users slot = Some us ->
  parse_or_empty slot w = (Return us, w).
Proof.
  unfold decode_users, parse_or_empty, JSON_parse_Users.
  destruct slot as [s|]; [|now intros [= <-]].
  destruct (JS.truthy s); [|now intros [= <-]].
  now intros ->.
Qed.

Lemma parse_or_empty_eq (slot : option string) (w : World) :
  parse_or_empty slot w =
    (match decode_users slot with
     | Some us => Return us
     | None => Throw (Error SyntaxError_message)
     end, w).
Proof.
  unfold decode_users, parse_or_empty, JSON_parse_Users.
  destruct slot as [s|]; [|reflexivity].
  destruct (JS.truthy s); [|reflexivity].
  destruct (JSON.parse_Users s); reflexivity.
Qed.

Lemma parse_or_empty_malformed (slot : option string) (w : World) :
  decode_users slot = None ->
  parse_or_empty slot w = (Throw (Error SyntaxError_message), w).
Proof.
  unfold decode_users, parse_or_empty, JSON_parse_Users.
  destruct slot as [s|]; [|discriminate].
  destruct (JS.truthy s); [|discriminate].
  now intros ->.
Qed.

Lemma register_fresh (w : World) (name email password : string) (us : list User.t) :
  faults w = [] ->
  JS.includes email "@" = true ->
  (8 <= JS.length password)%nat ->
  persisted_users w = Some us ->
  existsb (has_email email) us = false ->
  mockApi.register name email password w =
    (Return (registered w name email),
     with_storage
       (<["users" := JSON.stringify_Users (us ++ [registered w name email])]> (storage w))
       (with_now (now w + 1500) w)).
Proof.
  intros Hf Hat Hlen Hus Hfresh.
  apply Nat.ltb_ge in Hlen.
  destruct w as [st fs t os con al h]. unfold mockApi.register. exec. subst fs.
  rewrite Hat, Hlen. exec.
  rewrite (parse_or_empty_decode _ _ us Hus).
  change (existsb _ us) with (existsb (has_email email) us). rewrite Hfresh.
  reflexivity.
Qed.

Lemma register_taken (w : World) (name email password : string) (us : list User.t) :
  faults w = [] ->
  JS.includes email "@" = true ->
  (8 <= JS.length password)%nat ->
  persisted_users w = Some us ->
  existsb (has_email email) us = true ->
  mockApi.register name email password w =
    (Throw (Error "User already exists with this email"), with_now (now w + 1500) w).
Proof.
  intros Hf Hat Hlen Hus Htaken.
  apply Nat.ltb_ge in Hlen.
  destruct w as [st fs t os con al h]. unfold mockApi.register. exec. subst fs.
  rewrite Hat, Hlen. exec.
  rewrite (parse_or_empty_decode _ _ us Hus).
  change (existsb _ us) with (existsb (has_email email) us). rewrite Htaken.
  reflexivity.
Qed.

Lemma login_found (w : World) (email password : string) (us : list User.t) (u : User.t) :
  faults w = [] ->
  persisted_users w = Some us ->
  List.find (has_email email) us = Some u ->
  mockApi.login email password w = (Return u, with_now (now w + 1000) w).
Proof.
  intros Hf Hus Hfind.
  destruct w as [st fs t os con al h]. unfold mockApi.login. exec. subst fs.
  rewrite (parse_or_empty_decode _ _ us Hus).
  change (List.find _ us) with (List.find (has_email email) us). rewrite Hfind.
  reflexivity.
Qed.

Lemma login_missing (w : World) (email password : string) (us : list User.t) :
  faults w = [] ->
  persisted_users w = Some us ->
  List.find (has_email email) us = None ->
  mockApi.login email password w =
    (Throw (Error "Invalid email or password"), with_now (now w + 1000) w).
Proof.
  intros Hf Hus Hfind.
  destruct w as [st fs t os con al h]. unfold mockApi.login. exec. subst fs.
  rewrite (parse_or_empty_decode _ _ us Hus).
  change (List.find _ us) with (List.find (has_email email) us). rewrite Hfind.
  reflexivity.
Qed.

End MockApi.

(* ===================================================================== *)
(** ** [signOut] *)
(* ===================================================================== *)

Section SignOut.

(** C1 (as amended): when the removal of the [currentUser] slot fails,
    [signOut] logs the failure on the console and returns normally, with
    [loading] reset to [false]; the session state [user], the [error] cell and
    the store are left as they were. *)
Theorem signOut_removal_fails (w : World) (e : Thrown) (fs : list (option Thrown)) :
  faults w = Some e :: fs ->
  signOut w =
    (Return tt,
     with_hook (Hook.mk (Hook.user (hook w)) false (Hook.error (hook w)))
       (with_console (console w ++ [("Sign out error:", e)]) (with_faults fs w))).
Proof.
  intros Hf. destruct w as [st fs' t os con al [u l er]].
  unfold signOut. exec. subst fs'. reflexivity.
Qed.

Lemma signOut_removal_fails_witness :
  faults (Sample.signed_in [Some Sample.unavailable]) = [Some Sample.unavailable] /\
  Hook.user (hook (snd (signOut (Sample.signed_in [Some Sample.unavailable]))))
    = Some Sample.ann.
Proof.
  split; [reflexivity|].
  rewrite (signOut_removal_fails (Sample.signed_in [Some Sample.unavailable])
             Sample.unavailable []); reflexivity.
Defined.

(** Ann is signed in and the store rejects the removal: the call returns
    normally, yet Ann is still the session's user. *)
Lemma signOut_removal_fails_session_stays :
  faults (Sample.signed_in [Some Sample.unavailable]) = [Some Sample.unavailable] /\
  fst (signOut (Sample.signed_in [Some Sample.unavailable])) = Return tt /\
  Hook.user (hook (snd (signOut (Sample.signed_in [Some Sample.unavailable])))) <> None.
Proof.
  split; [reflexivity|]. split; [reflexivity|].
  unfold signOut, Sample.signed_in. exec. discriminate.
Qed.

(** When the removal succeeds the slot is gone and the session is cleared. *)
Lemma signOut_ok (w : World) :
  faults w = [] ->
  signOut w =
    (Return tt,
     with_hook (Hook.mk None false (Hook.error (hook w)))
       (with_storage (delete "currentUser" (storage w)) w)).
Proof.
  intros Hf. destruct w as [st fs' t os con al [u l er]].
  unfold signOut. exec. subst fs'. reflexivity.
Qed.

End SignOut.

(* ===================================================================== *)
(** ** [updateUser] *)
(* ===================================================================== *)

Section UpdateUser.

(** C2 (as amended): with a session active, when the write of [currentUser]
    has succeeded and the read of the [users] slot is rejected, [updateUser]
    re-raises that rejection with its message captured in [error]; the session
    state is left as it was, the [users] slot is not written, and the
    [currentUser] slot keeps the merged record (no rollback). *)
Theorem updateUser_read_fails
    (w : World) (user : User.t) (userData : Partial.t)
    (e : Thrown) (fs : list (option Thrown)) :
  Hook.user (hook w) = Some user ->
  faults w = None :: Some e :: fs ->
  updateUser userData w =
    (Throw e,
     with_hook (Hook.mk (Some user) (Hook.loading (hook w))
                  (Some (errorMessage e "Update failed")))
       (with_storage
          (<["currentUser" := JSON.stringify_User (spread user userData)]> (storage w))
          (with_faults fs w))).
Proof.
  intros Hu Hf. destruct w as [st fs' t os con al [u l er]].
  unfold updateUser. exec. subst u fs'. reflexivity.
Qed.

Lemma updateUser_read_fails_witness :
  fst (updateUser Sample.rename (Sample.signed_in [None; Some Sample.unavailable]))
    = Throw Sample.unavailable.
Proof.
  rewrite (updateUser_read_fails (Sample.signed_in [None; Some Sample.unavailable])
             Sample.ann Sample.rename Sample.unavailable []); reflexivity.
Defined.

(** Ann is signed in, the write of [currentUser] goes through and the read of
    [users] is rejected: the call raises, and the session is not the merged
    record. *)
Lemma updateUser_read_fails_raises :
  Hook.user (hook (Sample.signed_in [None; Some Sample.unavailable])) = Some Sample.ann /\
  faults (Sample.signed_in [None; Some Sample.unavailable])
    = [None; Some Sample.unavailable] /\
  fst (updateUser Sample.rename (Sample.signed_in [None; Some Sample.unavailable]))
    <> Return tt /\
  Hook.user (hook (snd (updateUser Sample.rename
                          (Sample.signed_in [None; Some Sample.unavailable]))))
    <> Some (spread Sample.ann Sample.rename).
Proof.
  split; [reflexivity|]. split; [reflexivity|].
  unfold updateUser, Sample.signed_in. exec. split; discriminate.
Qed.

(** An absent [users] slot is the case in which the list update is skipped
    silently and the session moves to the merged record. *)
Lemma updateUser_no_list (w : World) (user : User.t) (userData : Partial.t) :
  Hook.user (hook w) = Some user ->
  faults w = [] ->
  storage w !! "users" = None ->
  updateUser userData w =
    (Return tt,
     with_hook (Hook.mk (Some (spread user userData)) (Hook.loading (hook w))
                  (Hook.error (hook w)))
       (with_storage
          (<["currentUser" := JSON.stringify_User (spread user userData)]> (storage w))
          w)).
Proof.
  intros Hu Hf Hnone. destruct w as [st fs' t os con al [u l er]].
  unfold updateUser. exec. subst u fs'.
  rewrite lookup_insert_ne by discriminate. rewrite Hnone. reflexivity.
Qed.

(** A [users] slot whose text does not parse makes [updateUser] raise as
    well, again after the [currentUser] slot has been written. *)
Lemma updateUser_list_unparsable
    (w : World) (user : User.t) (userData : Partial.t) (s : string) :
  Hook.user (hook w) = Some user ->
  faults w = [] ->
  storage w !! "users" = Some s ->
  JS.truthy s = true ->
  JSON.parse_Users s = None ->
  updateUser userData w =
    (Throw (Error SyntaxError_message),
     with_hook (Hook.mk (Some user) (Hook.loading (hook w)) (Some SyntaxError_message))
       (with_storage
          (<["currentUser" := JSON.stringify_User (spread user userData)]> (storage w))
          w)).
Proof.
  intros Hu Hf Hslot Ht Hp. destruct w as [st fs' t os con al [u l er]].
  unfold updateUser. exec. subst u fs'.
  rewrite lookup_insert_ne by discriminate. rewrite Hslot, Ht, Hp. reflexivity.
Qed.

(** With a list in the store, every record carrying the session's [id] is
    replaced by the merged record, and the session moves to it. *)
Lemma updateUser_list_mirrored
    (w : World) (user : User.t) (userData : Partial.t) (s : string) (us : list User.t) :
  Hook.user (hook w) = Some user ->
  faults w = [] ->
  storage w !! "users" = Some s ->
  JS.truthy s = true ->
  JSON.parse_Users s = Some us ->
  updateUser userData w =
    (Return tt,
     with_hook (Hook.mk (Some (spread user userData)) (Hook.loading (hook w))
                  (Hook.error (hook w)))
       (with_storage
          (<["users" := JSON.stringify_Users
               (map (fun u => if JS.strict_eq (User.id u) (User.id user)
                              then spread user userData else u) us)]>
             (<["currentUser" := JSON.stringify_User (spread user userData)]>
                (storage w)))
          w)).
Proof.
  intros Hu Hf Hslot Ht Hp. destruct w as [st fs' t os con al [u l er]].
  unfold updateUser. exec. subst u fs'.
  rewrite lookup_insert_ne by discriminate. rewrite Hslot, Ht, Hp. reflexivity.
Qed.

(** C6: with no session active, [updateUser] raises the precondition error
    without calling the store: both slots and the session state are as before
    (only the [error] cell records the message). *)
Theorem updateUser_signed_out (w : World) (userData : Partial.t) :
  Hook.user (hook w) = None ->
  updateUser userData w =
    (Throw (Error "No user logged in"),
     with_hook (Hook.mk None (Hook.loading (hook w)) (Some "No user logged in")) w) /\
  storage (snd (updateUser userData w)) = storage w /\
  faults (snd (updateUser userData w)) = faults w /\
  Hook.user (hook (snd (updateUser userData w))) = Hook.user (hook w).
Proof.
  intros Hu. destruct w as [st fs' t os con al [u l er]].
  unfold updateUser. exec. subst u. repeat split.
Qed.

Lemma updateUser_signed_out_witness :
  fst (updateUser Sample.rename Sample.signed_out) = Throw (Error "No user logged in") /\
  storage (snd (updateUser Sample.rename Sample.signed_out)) = storage Sample.signed_out.
Proof.
  destruct (updateUser_signed_out Sample.signed_out Sample.rename) as (H & Hs & _);
    [reflexivity|].
  split; [now rewrite H | exact Hs].
Defined.

(** C10: [updateUser] never writes the [loading] cell, whatever the input, the
    store and the fate of the store calls. *)
Theorem updateUser_keeps_loading (w : World) (userData : Partial.t) :
  Hook.loading (hook (snd (updateUser userData w))) = Hook.loading (hook w).
Proof.
  destruct w as [st fs t os con al [u l er]].
  unfold updateUser. exec. destruct u as [user|]; [|reflexivity].
  destruct fs as [|[e|] fs]; try reflexivity.
  - destruct (<["currentUser" := _]> st !! "users") as [s|]; [|reflexivity].
    destruct (JS.truthy s); [|reflexivity].
    destruct (JSON.parse_Users s); reflexivity.
  - destruct fs as [|[e|] fs]; try reflexivity.
    + destruct (<["currentUser" := _]> st !! "users") as [s|]; [|reflexivity].
      destruct (JS.truthy s); [|reflexivity].
      destruct (JSON.parse_Users s); reflexivity.
    + destruct (<["currentUser" := _]> st !! "users") as [s|]; [|reflexivity].
      destruct (JS.truthy s); [|reflexivity].
      destruct (JSON.parse_Users s); [|reflexivity].
      destruct fs as [|[e|] fs]; reflexivity.
Qed.

End UpdateUser.

(* ===================================================================== *)
(** ** Session restore *)
(* ===================================================================== *)

Section Restore.

(** The restore adopts whatever record the text in the slot parses to. *)
Lemma restore_run (w : World) (s : string) (u : User.t) :
  faults w = [] ->
  storage w !! "currentUser" = Some s ->
  JS.truthy s = true ->
  JSON.parse_User s = Some u ->
  checkExistingSession w =
    (Return tt, with_hook (Hook.mk (Some u) false (Hook.error (hook w))) w).
Proof.
  intros Hf Hslot Ht Hp. destruct w as [st fs t os con al [u0 l er]].
  unfold checkExistingSession. exec. subst fs. rewrite Hslot, Ht, Hp. reflexivity.
Qed.

(** C7: a record that was persisted to the [currentUser] slot as its JSON
    text is decoded back to the same record by the session restore, which
    makes it the session's user (and leaves [loading] at [false]). *)
Theorem restore_persisted_session (w : World) (u : User.t) :
  faults w = [] ->
  storage w !! "currentUser" = Some (JSON.stringify_User u) ->
  JSON.parse_User (JSON.stringify_User u) = Some u /\
  checkExistingSession w =
    (Return tt, with_hook (Hook.mk (Some u) false (Hook.error (hook w))) w) /\
  Hook.user (hook (snd (checkExistingSession w))) = Some u.
Proof.
  intros Hf Hslot.
  pose proof (parse_stringify_User u) as Hp.
  pose proof (restore_run w _ u Hf Hslot (stringify_User_truthy u) Hp) as Hrun.
  split; [exact Hp|]. split; [exact Hrun|].
  rewrite Hrun. reflexivity.
Qed.

Lemma restore_persisted_session_witness :
  Hook.user (hook (snd (checkExistingSession
     (mkWorld Sample.ann_store [] 0 "ios" [] [] Hook.initial)))) = Some Sample.ann.
Proof.
  destruct (restore_persisted_session
              (mkWorld Sample.ann_store [] 0 "ios" [] [] Hook.initial) Sample.ann
              ltac:(evaluate) ltac:(evaluate)) as (_ & _ & H).
  exact H.
Defined.

(** With an empty slot the restore leaves the session absent. *)
Lemma restore_nothing (w : World) :
  faults w = [] ->
  storage w !! "currentUser" = None ->
  checkExistingSession w =
    (Return tt, with_hook (Hook.mk (Hook.user (hook w)) false (Hook.error (hook w))) w).
Proof.
  intros Hf Hslot. destruct w as [st fs t os con al [u0 l er]].
  unfold checkExistingSession. exec. subst fs. rewrite Hslot. reflexivity.
Qed.

End Restore.

(* ===================================================================== *)
(** ** Reading the store back *)
(* ===================================================================== *)

Section Persisted.

Lemma decode_users_stringify (us : list User.t) :
  decode_users (Some (JSON.stringify_Users us)) = Some us.
Proof.
  unfold decode_users. now rewrite stringify_Users_truthy, parse_stringify_Users.
Qed.

Lemma persisted_users_signed_up (w : World) (us : list User.t) (u : User.t) :
  persisted_users (signed_up w us u) = Some (us ++ [u]).
Proof.
  unfold persisted_users, signed_up. cbv [storage].
  rewrite lookup_insert_ne by discriminate. rewrite lookup_insert_eq.
  apply decode_users_stringify.
Qed.

Lemma persisted_currentUser_signed_up (w : World) (us : list User.t) (u : User.t) :
  persisted_currentUser (signed_up w us u) = Some u.
Proof.
  unfold persisted_currentUser, signed_up. cbv [storage].
  rewrite lookup_insert_eq. apply parse_stringify_User.
Qed.

Lemma has_email_refl (u : User.t) : has_email (User.email u) u = true.
Proof. apply String.eqb_refl. Qed.

Lemma unused_email_count (us : list User.t) (u : User.t) :
  existsb (has_email (User.email u)) us = false ->
  count_occ User.eq_dec us u = 0%nat.
Proof.
  induction us as [|v us IH]; [reflexivity|].
  cbn [existsb count_occ]. intros [Hv Hus]%orb_false_iff.
  destruct (User.eq_dec v u) as [->|_]; [|now apply IH].
  now rewrite has_email_refl in Hv.
Qed.

Lemma appended_once (us : list User.t) (u : User.t) :
  existsb (has_email (User.email u)) us = false ->
  count_occ User.eq_dec (us ++ [u]) u = 1%nat.
Proof.
  intros H. rewrite count_occ_app, unused_email_count by exact H.
  cbn [count_occ]. now destruct (User.eq_dec u u).
Qed.

Lemma appended_taken (us : list User.t) (u : User.t) :
  existsb (has_email (User.email u)) (us ++ [u]) = true.
Proof.
  rewrite existsb_app. cbn [existsb]. rewrite has_email_refl. now rewrite orb_true_r.
Qed.

End Persisted.

(* ===================================================================== *)
(** ** [signUp] *)
(* ===================================================================== *)

Section SignUp.

Variables name email password : string.

(** The inputs pass the three precondition checks of [signUp]. *)
Hypothesis name_given : JS.trim name <> EmptyString.
Hypothesis email_given : JS.trim email <> EmptyString.
Hypothesis password_long : (8 <= JS.length password)%nat.
Hypothesis email_at : JS.includes email "@" = true.
Hypothesis email_dot : JS.includes email "." = true.

Lemma password_given : JS.truthy password = true.
Proof using password_long.
  destruct password; [cbn in password_long; lia | reflexivity].
Qed.

(** Past its own checks, [signUp] is the call of [mockApi.register] followed
    by the write of the session. *)
Lemma signUp_checks_pass (w : World) :
  signUp name email password w =
  try_finally
    (try_catch
       (run setLoading true;
        run setError None;
        do newUser <- mockApi.register (JS.trim name) (normalize email) password;
        run AsyncStorage.setItem "currentUser" (JSON.stringify_User newUser);
        run setUser (Some newUser);
        do os <- getPlatform_OS;
        when (JS.strict_eq os "web") (alert "Account created successfully!"))
       (fun err =>
          run setError (Some (errorMessage err "Registration failed"));
          throw err))
    (setLoading false) w.
Proof using name_given email_given password_long email_at email_dot.
  pose proof (proj2 (truthy_iff _) name_given) as Hn.
  pose proof (proj2 (truthy_iff _) email_given) as He.
  pose proof (proj2 (Nat.ltb_ge _ _) password_long) as Hl.
  destruct w as [st fs t os con al [u l er]]. unfold signUp, normalize. exec.
  rewrite Hn, He, password_given, Hl, email_at, email_dot. reflexivity.
Qed.

(** C8: for inputs that pass the checks of [signUp], the two validation
    guards of [mockApi.register] are false at the arguments [signUp] passes,
    so neither validation branch is taken: if the call of [mockApi.register]
    ever raises "Invalid email format" or "Password must be at least 8
    characters", that value is a rejection issued by the store. *)
Theorem register_validation_unreachable :
  negb (JS.includes (normalize email) "@") = false /\
  (JS.length password <? 8)%nat = false /\
  forall (w : World) (e : Thrown),
    fst (mockApi.register (JS.trim name) (normalize email) password w) = Throw e ->
    e = Error "Invalid email format" \/
    e = Error "Password must be at least 8 characters" ->
    In (Some e) (faults w).
Proof using password_long email_at.
  assert (Hat : JS.includes (normalize email) "@" = true)
    by (apply normalized_keeps_at, email_at).
  assert (Hlen : (JS.length password <? 8)%nat = false)
    by (apply Nat.ltb_ge, password_long).
  split; [now rewrite Hat|]. split; [exact Hlen|].
  intros [st fs t os con al h] e. unfold mockApi.register. exec.
  rewrite Hat, Hlen. exec.
  destruct fs as [|[e0|] fs]; rewrite ?parse_or_empty_eq.
  - destruct (decode_users (st !! "users")) as [us|]; exec.
    + destruct (existsb _ us); cbn [fst].
      * intros [= <-] [H|H]; discriminate H.
      * discriminate.
    + intros [= <-] [H|H]; discriminate H.
  - intros [= ->] _. now left.
  - destruct (decode_users (st !! "users")) as [us|]; exec.
    + destruct (existsb _ us); cbn [fst].
      * intros [= <-] [H|H]; discriminate H.
      * destruct fs as [|[e0|] fs]; cbn [fst]; try discriminate.
        intros [= ->] _. right. now left.
    + intros [= <-] [H|H]; discriminate H.
Qed.

Lemma signUp_fresh_run (w : World) (us : list User.t) :
  faults w = [] ->
  persisted_users w = Some us ->
  existsb (has_email (normalize email)) us = false ->
  signUp name email password w =
    (Return tt, signed_up w us (registered w (JS.trim name) (normalize email))).
Proof using name_given email_given password_long email_at email_dot.
  intros Hf Hus Hfresh. rewrite signUp_checks_pass.
  destruct w as [st fs t os con al [u l er]]. unfold signed_up. exec. subst fs.
  erewrite register_fresh;
    [| reflexivity | apply normalized_keeps_at, email_at | exact password_long
     | exact Hus | exact Hfresh ].
  exec. destruct (JS.strict_eq os "web"); reflexivity.
Qed.

Lemma signUp_taken_run (w : World) (us : list User.t) :
  faults w = [] ->
  persisted_users w = Some us ->
  existsb (has_email (normalize email)) us = true ->
  signUp name email password w =
    (Throw (Error "User already exists with this email"),
     rejected w 1500 "User already exists with this email").
Proof using name_given email_given password_long email_at email_dot.
  intros Hf Hus Htaken. rewrite signUp_checks_pass.
  destruct w as [st fs t os con al [u l er]]. unfold rejected. exec. subst fs.
  erewrite register_taken;
    [| reflexivity | apply normalized_keeps_at, email_at | exact password_long
     | exact Hus | exact Htaken ].
  reflexivity.
Qed.

(** C3 (as amended): for inputs that pass the checks of [signUp], when the
    store calls succeed, the [users] slot holds a list [us] and no record of
    [us] carries the trimmed, lower-cased e-mail, [signUp] returns normally,
    the session state is the newly created record, and that record occurs
    exactly once in the list persisted afterwards. *)
Theorem signUp_unused_email (w : World) (us : list User.t) :
  faults w = [] ->
  persisted_users w = Some us ->
  existsb (has_email (normalize email)) us = false ->
  fst (signUp name email password w) = Return tt /\
  Hook.user (hook (snd (signUp name email password w)))
    = Some (registered w (JS.trim name) (normalize email)) /\
  persisted_users (snd (signUp name email password w))
    = Some (us ++ [registered w (JS.trim name) (normalize email)]) /\
  count_occ User.eq_dec (us ++ [registered w (JS.trim name) (normalize email)])
    (registered w (JS.trim name) (normalize email)) = 1%nat.
Proof using name_given email_given password_long email_at email_dot.
  intros Hf Hus Hfresh. rewrite (signUp_fresh_run w us Hf Hus Hfresh).
  cbn [fst snd]. split; [reflexivity|]. split; [reflexivity|].
  split; [apply persisted_users_signed_up|].
  apply appended_once. exact Hfresh.
Qed.

End SignUp.

Section SignUpExamples.

Lemma signUp_unused_email_witness :
  fst (signUp "  Ann " " Ann@Ex.Co " "password1" Sample.fresh) = Return tt /\
  Hook.user (hook (snd (signUp "  Ann " " Ann@Ex.Co " "password1" Sample.fresh)))
    = Some (User.mk "1700000001500" "Ann" "ann@ex.co" (Some "2023-11-14T22:13:21.500Z")).
Proof.
  destruct (signUp_unused_email "  Ann " " Ann@Ex.Co " "password1"
              ltac:(evaluate) ltac:(evaluate) ltac:(evaluate) ltac:(evaluate)
              ltac:(evaluate) Sample.fresh []
              ltac:(evaluate) ltac:(evaluate) ltac:(evaluate)) as (H1 & H2 & _).
  split; [exact H1 | exact H2].
Defined.

(** Ann is registered as ann@ex.co; the address Ann@ex.co is not in the list,
    and registering it is refused all the same. *)
Lemma signUp_other_case_refused :
  JS.trim "Ann B" <> EmptyString /\
  JS.trim "Ann@ex.co" <> EmptyString /\
  (8 <= JS.length "password1")%nat /\
  JS.includes "Ann@ex.co" "@" = true /\
  JS.includes "Ann@ex.co" "." = true /\
  faults Sample.signed_out = [] /\
  persisted_users Sample.signed_out = Some [Sample.ann] /\
  existsb (has_email "Ann@ex.co") [Sample.ann] = false /\
  fst (signUp "Ann B" "Ann@ex.co" "password1" Sample.signed_out)
    = Throw (Error "User already exists with this email") /\
  fst (signUp "Ann B" "Ann@ex.co" "password1" Sample.signed_out) <> Return tt.
Proof.
  repeat split; evaluate.
Qed.

Lemma register_validation_unreachable_witness :
  negb (JS.includes (normalize " Ann@Ex.Co ") "@") = false /\
  (JS.length "password1" <? 8)%nat = false.
Proof.
  destruct (register_validation_unreachable "  Ann " " Ann@Ex.Co " "password1"
              ltac:(evaluate) ltac:(evaluate)) as (H1 & H2 & _).
  split; [exact H1 | exact H2].
Defined.

End SignUpExamples.

(* ===================================================================== *)
(** ** Registering the same address twice *)
(* ===================================================================== *)

Section Twice.

(** C4: for inputs that pass the checks of [signUp] and an address not yet
    registered, with the store calls succeeding, the first [signUp] returns
    normally, a second [signUp] with the same e-mail (whatever name and
    password it is given, as long as they pass the checks) fails with
    "User already exists with this email", and the persisted list has gained
    exactly one record over the two calls. *)
Theorem signUp_twice
    (w : World) (us : list User.t) (name email password name2 password2 : string) :
  JS.trim name <> EmptyString ->
  JS.trim email <> EmptyString ->
  (8 <= JS.length password)%nat ->
  JS.includes email "@" = true ->
  JS.includes email "." = true ->
  JS.trim name2 <> EmptyString ->
  (8 <= JS.length password2)%nat ->
  faults w = [] ->
  persisted_users w = Some us ->
  existsb (has_email (normalize email)) us = false ->
  fst (signUp name email password w) = Return tt /\
  fst (signUp name2 email password2 (snd (signUp name email password w)))
    = Throw (Error "User already exists with this email") /\
  persisted_users
    (snd (signUp name2 email password2 (snd (signUp name email password w))))
    = Some (us ++ [registered w (JS.trim name) (normalize email)]) /\
  List.length (us ++ [registered w (JS.trim name) (normalize email)])
    = S (List.length us).
Proof.
  intros Hn He Hp Hat Hdot Hn2 Hp2 Hf Hus Hfresh.
  rewrite (signUp_fresh_run name email password Hn He Hp Hat Hdot w us Hf Hus Hfresh).
  cbn [fst snd].
  rewrite (signUp_taken_run name2 email password2 Hn2 He Hp2 Hat Hdot _
             (us ++ [registered w (JS.trim name) (normalize email)])).
  - cbn [fst snd]. split; [reflexivity|]. split; [reflexivity|].
    split; [apply (persisted_users_signed_up w)|].
    rewrite length_app. cbn. lia.
  - exact Hf.
  - apply persisted_users_signed_up.
  - apply (appended_taken us (registered w (JS.trim name) (normalize email))).
Qed.

Lemma signUp_twice_witness :
  fst (signUp "Bob" "ann@ex.co" "password2"
         (snd (signUp "Ann" "ann@ex.co" "password1" Sample.fresh)))
    = Throw (Error "User already exists with this email").
Proof.
  destruct (signUp_twice Sample.fresh [] "Ann" "ann@ex.co" "password1" "Bob" "password2"
              ltac:(evaluate) ltac:(evaluate) ltac:(evaluate) ltac:(evaluate)
              ltac:(evaluate) ltac:(evaluate) ltac:(evaluate) ltac:(evaluate)
              ltac:(evaluate) ltac:(evaluate)) as (_ & H & _).
  exact H.
Defined.

End Twice.

Section SignUpSuccess.

(** A registration that returns has found a list in the store, appended the
    new record to it and written it back. *)
Lemma register_success_shape (w w1 : World) (name email password : string) (u : User.t) :
  mockApi.register name email password w = (Return u, w1) ->
  exists (us : list User.t) (fs : list (option Thrown)),
    persisted_users w = Some us /\
    u = registered w name email /\
    w1 = with_faults fs
           (with_storage
              (<["users" := JSON.stringify_Users (us ++ [u])]> (storage w))
              (with_now (now w + 1500) w)).
Proof.
  destruct w as [st fs t os con al h]. unfold mockApi.register. exec.
  destruct (JS.includes email "@"); [|discriminate].
  destruct (JS.length password <? 8)%nat; [discriminate|]. exec.
  destruct fs as [|[e|] fs]; rewrite ?parse_or_empty_eq; [| discriminate |].
  - destruct (decode_users (st !! "users")) as [us|]; [|discriminate]. exec.
    destruct (existsb _ us); [discriminate|].
    intros [= <- <-]. exists us, []. repeat split.
  - destruct (decode_users (st !! "users")) as [us|]; [|discriminate]. exec.
    destruct (existsb _ us); [discriminate|].
    destruct fs as [|[e|] fs]; [| discriminate |].
    + intros [= <- <-]. exists us, []. repeat split.
    + intros [= <- <-]. exists us, fs. repeat split.
Qed.

(** Whatever the store does, a [signUp] that returns normally has found a
    list [us] in the store and leaves the world [signed_up] describes, up to
    the store outcomes it has consumed. *)
Lemma signUp_success_shape (w w' : World) (name email password : string) :
  signUp name email password w = (Return tt, w') ->
  exists (us : list User.t) (fs : list (option Thrown)),
    persisted_users w = Some us /\
    w' = with_faults fs
           (signed_up w us (registered w (JS.trim name) (normalize email))).
Proof.
  destruct w as [st fs t os con al [u l er]].
  unfold signUp, signed_up. fold (normalize email). exec. intros H.
  destruct (JS.truthy (JS.trim name)); [|discriminate H].
  destruct (JS.truthy (JS.trim email)); [|discriminate H].
  destruct (JS.truthy password); [|discriminate H].
  destruct (JS.length password <? 8)%nat; [discriminate H|].
  destruct (JS.includes email "@"); [|discriminate H].
  destruct (JS.includes email "."); [|discriminate H].
  destruct (mockApi.register _ _ _ _) as [[newUser|e] w1] eqn:Hreg;
    [|discriminate H].
  apply register_success_shape in Hreg as (us & fs1 & Hus & -> & ->).
  exists us. exec.
  destruct fs1 as [|[e|] fs1]; [| discriminate H |];
    destruct (JS.strict_eq os "web"); injection H as <-; eauto.
Qed.

(** C9: after every [signUp] that returns normally, the record in the
    [currentUser] slot is the last element of the list in the [users] slot
    (which is the list found there with that one record appended), and the
    record carries the trimmed name and the trimmed, lower-cased e-mail. *)
Theorem signUp_slots_agree (w w' : World) (name email password : string) :
  signUp name email password w = (Return tt, w') ->
  exists (us : list User.t) (u : User.t),
    persisted_users w = Some us /\
    storage w' !! "currentUser" = Some (JSON.stringify_User u) /\
    storage w' !! "users" = Some (JSON.stringify_Users (us ++ [u])) /\
    persisted_currentUser w' = Some u /\
    persisted_users w' = Some (us ++ [u]) /\
    last (us ++ [u]) = Some u /\
    User.name u = JS.trim name /\
    User.email u = JS.toLowerCase (JS.trim email).
Proof.
  intros (us & fs & Hus & ->)%signUp_success_shape.
  exists us, (registered w (JS.trim name) (normalize email)).
  split; [exact Hus|].
  split; [apply lookup_insert_eq|].
  split; [cbv [with_faults signed_up storage];
          rewrite lookup_insert_ne by discriminate; apply lookup_insert_eq|].
  split; [apply (persisted_currentUser_signed_up w)|].
  split; [apply (persisted_users_signed_up w)|].
  split; [apply last_snoc|].
  split; reflexivity.
Qed.

(** A hook mounted afresh on the store a [signUp] has left restores the very
    record that [signUp] made the session's user. *)
Lemma restore_after_signUp (w w' : World) (name email password : string) :
  signUp name email password w = (Return tt, w') ->
  Hook.user (hook (snd (checkExistingSession
                          (with_faults [] (with_hook Hook.initial w')))))
    = Hook.user (hook w').
Proof.
  intros (us & fs & Hus & ->)%signUp_success_shape.
  rewrite (restore_run _
             (JSON.stringify_User (registered w (JS.trim name) (normalize email)))
             (registered w (JS.trim name) (normalize email)));
    [ reflexivity | reflexivity | apply lookup_insert_eq
    | apply stringify_User_truthy | apply parse_stringify_User ].
Qed.

Lemma signUp_slots_agree_witness :
  exists (us : list User.t) (u : User.t),
    persisted_currentUser
      (snd (signUp " Bob " " Bob@Ex.Co " "password1" Sample.signed_out)) = Some u /\
    last (us ++ [u]) = Some u /\
    User.email u = "bob@ex.co".
Proof.
  destruct (signUp_slots_agree Sample.signed_out
              (snd (signUp " Bob " " Bob@Ex.Co " "password1" Sample.signed_out))
              " Bob " " Bob@Ex.Co " "password1" ltac:(evaluate))
    as (us & u & _ & _ & _ & Hc & _ & Hl & _ & He).
  exists us, u. split; [exact Hc|]. split; [exact Hl | exact He].
Defined.

End SignUpSuccess.

(* ===================================================================== *)
(** ** [signIn] *)
(* ===================================================================== *)

Section SignIn.

Variables email password : string.

(** The inputs pass the precondition check of [signIn]. *)
Hypothesis email_given : JS.trim email <> EmptyString.
Hypothesis password_given : password <> EmptyString.

Lemma signIn_found_run (w : World) (us : list User.t) (u : User.t) :
  faults w = [] ->
  persisted_users w = Some us ->
  List.find (has_email (normalize email)) us = Some u ->
  signIn email password w = (Return tt, signed_in_as w u).
Proof using email_given password_given.
  intros Hf Hus Hfind.
  pose proof (proj2 (truthy_iff _) email_given) as He.
  pose proof (proj2 (truthy_iff _) password_given) as Hp.
  destruct w as [st fs t os con al [u0 l er]].
  unfold signIn, signed_in_as. fold (normalize email). exec. subst fs.
  rewrite He, Hp. exec.
  erewrite login_found; [| reflexivity | exact Hus | exact Hfind ].
  reflexivity.
Qed.

Lemma signIn_missing_run (w : World) (us : list User.t) :
  faults w = [] ->
  persisted_users w = Some us ->
  List.find (has_email (normalize email)) us = None ->
  signIn email password w =
    (Throw (Error "Invalid email or password"),
     rejected w 1000 "Invalid email or password").
Proof using email_given password_given.
  intros Hf Hus Hfind.
  pose proof (proj2 (truthy_iff _) email_given) as He.
  pose proof (proj2 (truthy_iff _) password_given) as Hp.
  destruct w as [st fs t os con al [u0 l er]].
  unfold signIn, rejected. fold (normalize email). exec. subst fs.
  rewrite He, Hp. exec.
  erewrite login_missing; [| reflexivity | exact Hus | exact Hfind ].
  reflexivity.
Qed.

(** C5 (as amended): for an e-mail that is non-empty after trimming and a
    non-empty password, with the store calls succeeding and a list [us] in the
    [users] slot, [signIn] fails with "Invalid email or password" exactly when
    no record of [us] carries the trimmed, lower-cased e-mail, and then the
    session state is left as it was; when some record carries it, [signIn]
    returns normally whatever the password is, and the session and the
    [currentUser] slot hold the first such record. *)
Theorem signIn_by_email_only (w : World) (us : list User.t) :
  faults w = [] ->
  persisted_users w = Some us ->
  (fst (signIn email password w) = Throw (Error "Invalid email or password")
     <-> existsb (has_email (normalize email)) us = false) /\
  (existsb (has_email (normalize email)) us = false ->
     Hook.user (hook (snd (signIn email password w))) = Hook.user (hook w)) /\
  (forall u : User.t,
     List.find (has_email (normalize email)) us = Some u ->
     fst (signIn email password w) = Return tt /\
     Hook.user (hook (snd (signIn email password w))) = Some u /\
     persisted_currentUser (snd (signIn email password w)) = Some u).
Proof using email_given password_given.
  intros Hf Hus.
  destruct (List.find (has_email (normalize email)) us) as [u|] eqn:Hfind.
  - rewrite (signIn_found_run w us u Hf Hus Hfind).
    assert (Hex : existsb (has_email (normalize email)) us = true).
    { apply existsb_exists. exists u. apply find_some in Hfind. tauto. }
    rewrite Hex. cbn [fst snd]. split; [split; discriminate|].
    split; [discriminate|]. intros ? [= <-].
    split; [reflexivity|]. split; [reflexivity|].
    unfold persisted_currentUser, signed_in_as. cbv [storage].
    rewrite lookup_insert_eq. apply parse_stringify_User.
  - rewrite (signIn_missing_run w us Hf Hus Hfind).
    assert (Hex : existsb (has_email (normalize email)) us = false).
    { apply not_true_is_false. intros (u & Hin & Hu)%existsb_exists.
      now rewrite (find_none _ _ Hfind u Hin) in Hu. }
    cbn [fst snd]. split; [split; [intros _; exact Hex | reflexivity]|].
    split; [reflexivity | discriminate].
Qed.

End SignIn.

Section SignInExamples.

Lemma signIn_by_email_only_witness :
  fst (signIn " ANN@ex.co" "x" Sample.signed_out) = Return tt /\
  Hook.user (hook (snd (signIn " ANN@ex.co" "x" Sample.signed_out))) = Some Sample.ann.
Proof.
  destruct (signIn_by_email_only " ANN@ex.co" "x" ltac:(evaluate) ltac:(evaluate)
              Sample.signed_out [Sample.ann] ltac:(evaluate) ltac:(evaluate))
    as (_ & _ & H).
  destruct (H Sample.ann ltac:(evaluate)) as (H1 & H2 & _).
  split; [exact H1 | exact H2].
Defined.

(** A blank e-mail is a non-empty string that matches no record, and [signIn]
    rejects it with the message of its own precondition check. *)
Lemma signIn_blank_email_required :
  " "%string <> EmptyString /\
  "secret"%string <> EmptyString /\
  faults Sample.signed_out = [] /\
  persisted_users Sample.signed_out = Some [Sample.ann] /\
  existsb (has_email " ") [Sample.ann] = false /\
  existsb (has_email (normalize " ")) [Sample.ann] = false /\
  fst (signIn " " "secret" Sample.signed_out)
    = Throw (Error "Email and password are required") /\
  fst (signIn " " "secret" Sample.signed_out)
    <> Throw (Error "Invalid email or password").
Proof.
  repeat split; evaluate.
Qed.

End SignInExamples.

(* ===================================================================== *)
(** ** Signing out and restoring, whatever the store does *)
(* ===================================================================== *)

Section SessionLifecycle.

(** X1: when the store call succeeds, [signOut] returns normally with the
    session absent, [loading] at [false] and no value in the [currentUser]
    slot, and the [users] slot is what it was. *)
Theorem signOut_clears (w : World) :
  faults w = [] ->
  fst (signOut w) = Return tt /\
  Hook.user (hook (snd (signOut w))) = None /\
  Hook.loading (hook (snd (signOut w))) = false /\
  storage (snd (signOut w)) !! "currentUser" = None /\
  storage (snd (signOut w)) !! "users" = storage w !! "users".
Proof.
  intros Hf. rewrite (signOut_ok w Hf). cbn [fst snd].
  split; [reflexivity|]. split; [reflexivity|]. split; [reflexivity|].
  cbv [with_hook with_storage storage].
  split; [apply lookup_delete_eq | now rewrite lookup_delete_ne].
Qed.

Lemma signOut_clears_witness :
  Hook.user (hook (snd (signOut (Sample.signed_in [])))) = None /\
  persisted_users (snd (signOut (Sample.signed_in []))) = Some [Sample.ann].
Proof.
  destruct (signOut_clears (Sample.signed_in []) ltac:(evaluate))
    as (_ & H & _ & _ & Hu).
  split; [exact H|]. unfold persisted_users. rewrite Hu. evaluate.
Defined.

(** X2: [signOut] never raises: in every world, whatever the store answers,
    it returns normally with [loading] at [false], and it touches neither the
    [error] cell nor the [users] slot. *)
Theorem signOut_never_raises (w : World) :
  fst (signOut w) = Return tt /\
  Hook.loading (hook (snd (signOut w))) = false /\
  Hook.error (hook (snd (signOut w))) = Hook.error (hook w) /\
  storage (snd (signOut w)) !! "users" = storage w !! "users".
Proof.
  destruct w as [st fs t os con al [u l er]]. unfold signOut. exec.
  destruct fs as [|[e|] fs]; cbv [fst snd storage hook Hook.loading Hook.error];
    repeat split; now rewrite ?lookup_delete_ne.
Qed.

(** X3: the session restore never raises and never writes: in every world
    it returns normally with [loading] at [false], the store is what it was,
    and the [error] cell is untouched. *)
Theorem restore_never_raises (w : World) :
  fst (checkExistingSession w) = Return tt /\
  Hook.loading (hook (snd (checkExistingSession w))) = false /\
  Hook.error (hook (snd (checkExistingSession w))) = Hook.error (hook w) /\
  storage (snd (checkExistingSession w)) = storage w.
Proof.
  destruct w as [st fs t os con al [u l er]]. unfold checkExistingSession. exec.
  destruct fs as [|[e|] fs]; try (repeat split; fail);
    (destruct (st !! "currentUser") as [s|]; [|repeat split]);
    (destruct (JS.truthy s); [|repeat split]);
    (destruct (JSON.parse_User s); repeat split).
Qed.



(** X5: a hook mounted on the store a successful [signOut] has left finds no
    session. *)
Theorem mount_after_signOut (w : World) :
  faults w = [] ->
  fst (mount (snd (signOut w))) = Return tt /\
  Hook.user (hook (snd (mount (snd (signOut w))))) = None.
Proof.
  intros Hf. rewrite (signOut_ok w Hf). cbn [snd]. unfold mount.
  rewrite restore_nothing.
  - split; reflexivity.
  - destruct w; exact Hf.
  - destruct w. cbv [with_hook with_storage storage]. apply lookup_delete_eq.
Qed.

Lemma mount_after_signOut_witness :
  Hook.user (hook (snd (mount (snd (signOut (Sample.signed_in [])))))) = None.
Proof.
  destruct (mount_after_signOut (Sample.signed_in []) ltac:(evaluate)) as (_ & H).
  exact H.
Defined.

End SessionLifecycle.

(* ===================================================================== *)
(** ** [mockApi] and the store *)
(* ===================================================================== *)

Section MockApiFrame.

(** A registration that raises has consumed store outcomes and let time
    pass, and nothing else. *)
Lemma register_throw_shape (w w1 : World) (name email password : string) (e : Thrown) :
  mockApi.register name email password w = (Throw e, w1) ->
  exists fs : list (option Thrown), w1 = with_faults fs (with_now (now w + 1500) w).
Proof.
  destruct w as [st fs t os con al h]. unfold mockApi.register. exec.
  destruct (JS.includes email "@"); [|intros [= <- <-]; eauto].
  destruct (JS.length password <? 8)%nat; [intros [= <- <-]; eauto|]. exec.
  destruct fs as [|[e0|] fs]; rewrite ?parse_or_empty_eq.
  - destruct (decode_users (st !! "users")) as [us|]; exec;
      [|intros [= <- <-]; eauto].
    destruct (existsb _ us); [intros [= <- <-]; eauto | discriminate].
  - intros [= <- <-]. eauto.
  - destruct (decode_users (st !! "users")) as [us|]; exec;
      [|intros [= <- <-]; eauto].
    destruct (existsb _ us); [intros [= <- <-]; eauto|].
    destruct fs as [|[e1|] fs]; [discriminate | intros [= <- <-]; eauto | discriminate].
Qed.

(** A login consumes store outcomes and lets time pass, and nothing else;
    the record it returns is the first of the stored list with the address. *)
Lemma login_shape (w w1 : World) (email password : string) (r : Outcome User.t) :
  mockApi.login email password w = (r, w1) ->
  (exists fs : list (option Thrown), w1 = with_faults fs (with_now (now w + 1000) w)) /\
  (forall u, r = Return u ->
     exists us, persisted_users w = Some us /\
                List.find (has_email email) us = Some u).
Proof.
  destruct w as [st fs t os con al h]. unfold mockApi.login. exec.
  destruct fs as [|[e0|] fs]; rewrite ?parse_or_empty_eq.
  - destruct (decode_users (st !! "users")) as [us|] eqn:Hus; exec.
    + change (List.find _ us) with (List.find (has_email email) us).
      destruct (List.find (has_email email) us) as [u|] eqn:Hfind;
        intros [= <- <-]; (split; [eauto|]); intros u' [= <-]; eauto.
    + intros [= <- <-]. split; [eauto | discriminate].
  - intros [= <- <-]. split; [eauto | discriminate].
  - destruct (decode_users (st !! "users")) as [us|] eqn:Hus; exec.
    + change (List.find _ us) with (List.find (has_email email) us).
      destruct (List.find (has_email email) us) as [u|] eqn:Hfind;
        intros [= <- <-]; (split; [eauto|]); intros u' [= <-]; eauto.
    + intros [= <- <-]. split; [eauto | discriminate].
Qed.

(** A registration returns only when no stored record carries the address. *)
Lemma register_success_unused
    (w w1 : World) (name email password : string) (u : User.t) :
  mockApi.register name email password w = (Return u, w1) ->
  forall us, persisted_users w = Some us ->
             existsb (has_email email) us = false.
Proof.
  destruct w as [st fs t os con al h]. unfold mockApi.register. exec.
  destruct (JS.includes email "@"); [|discriminate].
  destruct (JS.length password <? 8)%nat; [discriminate|]. exec.
  destruct fs as [|[e|] fs]; rewrite ?parse_or_empty_eq; [| discriminate |];
    (destruct (decode_users (st !! "users")) as [us0|]; [|discriminate]); exec;
    change (existsb _ us0) with (existsb (has_email email) us0);
    (destruct (existsb (has_email email) us0) eqn:Hex; [discriminate|]);
    intros _ us [= <-]; exact Hex.
Qed.

(** X6: [mockApi] writes the store in one place only.  [login] never changes
    it; [register] never touches the [currentUser] slot, and a [register]
    that raises leaves the whole store as it was. *)
Theorem mockApi_store_frame (w : World) (name email password : string) :
  storage (snd (mockApi.login email password w)) = storage w /\
  storage (snd (mockApi.register name email password w)) !! "currentUser"
    = storage w !! "currentUser" /\
  (forall e, fst (mockApi.register name email password w) = Throw e ->
     storage (snd (mockApi.register name email password w)) = storage w).
Proof.
  split; [|split].
  - destruct (mockApi.login email password w) as [r w1] eqn:H.
    apply login_shape in H as [[fs ->] _]. reflexivity.
  - destruct (mockApi.register name email password w) as [[u|e] w1] eqn:H.
    + apply register_success_shape in H as (us & fs & _ & _ & ->).
      cbv [snd with_faults with_storage storage]. now rewrite lookup_insert_ne.
    + apply register_throw_shape in H as [fs ->]. reflexivity.
  - intros e. destruct (mockApi.register name email password w) as [[u|e'] w1] eqn:H;
      [discriminate|]. intros _.
    apply register_throw_shape in H as [fs ->]. reflexivity.
Qed.

Lemma mockApi_store_frame_witness :
  storage (snd (mockApi.register "Ann B" "ann@ex.co" "password1" Sample.signed_out))
    = storage Sample.signed_out.
Proof.
  destruct (mockApi_store_frame Sample.signed_out "Ann B" "ann@ex.co" "password1")
    as (_ & _ & H).
  exact (H (Error "User already exists with this email") ltac:(evaluate)).
Defined.

End MockApiFrame.

(* ===================================================================== *)
(** ** [signUp], whatever the store does *)
(* ===================================================================== *)

Section SignUpAlways.

(** A [signUp] that raises leaves the hook with the old user, [loading] at
    [false] and the message in [error]; the store is as before, or holds the
    enlarged list when the failure came after the list was written. *)
Lemma signUp_throw_shape (w w' : World) (name email password : string) (e : Thrown) :
  signUp name email password w = (Throw e, w') ->
  exists (st : gmap string string) (fs : list (option Thrown)) (t : Z),
    w' = mkWorld st fs t (Platform_OS w) (console w) (alerts w)
           (Hook.mk (Hook.user (hook w)) false
              (Some (errorMessage e "Registration failed"))) /\
    (st = storage w \/
     exists us : list User.t,
       persisted_users w = Some us /\
       existsb (has_email (normalize email)) us = false /\
       st = <["users" := JSON.stringify_Users
                (us ++ [registered w (JS.trim name) (normalize email)])]> (storage w)).
Proof.
  destruct w as [st fs t os con al [u l er]].
  unfold signUp. fold (normalize email). exec. intros H.
  destruct (JS.truthy (JS.trim name));
    [|injection H as <- <-; do 3 eexists; split; [reflexivity | now left]].
  destruct (JS.truthy (JS.trim email));
    [|injection H as <- <-; do 3 eexists; split; [reflexivity | now left]].
  destruct (JS.truthy password);
    [|injection H as <- <-; do 3 eexists; split; [reflexivity | now left]].
  destruct (JS.length password <? 8)%nat;
    [injection H as <- <-; do 3 eexists; split; [reflexivity | now left]|].
  destruct (JS.includes email "@");
    [|injection H as <- <-; do 3 eexists; split; [reflexivity | now left]].
  destruct (JS.includes email ".");
    [|injection H as <- <-; do 3 eexists; split; [reflexivity | now left]].
  destruct (mockApi.register _ _ _ _) as [[newUser|e'] w1] eqn:Hreg.
  - pose proof (register_success_unused _ _ _ _ _ _ Hreg) as Hfresh.
    apply register_success_shape in Hreg as (us & fs1 & Hus & -> & ->).
    specialize (Hfresh us Hus). exec.
    destruct fs1 as [|[e1|] fs1];
      [ destruct (JS.strict_eq os "web"); discriminate H | |
        destruct (JS.strict_eq os "web"); discriminate H ].
    injection H as <- <-. do 3 eexists. split; [reflexivity|].
    right. exists us. split; [exact Hus|]. split; [exact Hfresh | reflexivity].
  - apply register_throw_shape in Hreg as [fs1 ->]. exec.
    injection H as <- <-. do 3 eexists. split; [reflexivity | now left].
Qed.

(** A [signUp] returns only when no stored record carries the address. *)
Lemma signUp_unused_on_return (w w' : World) (name email password : string) :
  signUp name email password w = (Return tt, w') ->
  forall us, persisted_users w = Some us ->
             existsb (has_email (normalize email)) us = false.
Proof.
  destruct w as [st fs t os con al [u l er]].
  unfold signUp. fold (normalize email). exec. intros H.
  destruct (JS.truthy (JS.trim name)); [|discriminate H].
  destruct (JS.truthy (JS.trim email)); [|discriminate H].
  destruct (JS.truthy password); [|discriminate H].
  destruct (JS.length password <? 8)%nat; [discriminate H|].
  destruct (JS.includes email "@"); [|discriminate H].
  destruct (JS.includes email "."); [|discriminate H].
  destruct (mockApi.register _ _ _ _) as [[newUser|e] w1] eqn:Hreg;
    [|discriminate H].
  exact (register_success_unused _ _ _ _ _ _ Hreg).
Qed.

(** X7: the [loading] / [error] discipline of [signUp], in every world and
    whatever the store answers.  Afterwards [loading] is [false].  When
    [signUp] returns, [error] is absent and the session's user is the record
    just created; when it raises, [error] holds the message of what was
    raised ("Registration failed" for a value that is not an [Error]) and the
    session's user is the one from before. *)
Theorem signUp_discipline (w : World) (name email password : string) :
  Hook.loading (hook (snd (signUp name email password w))) = false /\
  match fst (signUp name email password w) with
  | Return _ =>
      Hook.error (hook (snd (signUp name email password w))) = None /\
      Hook.user (hook (snd (signUp name email password w)))
        = Some (registered w (JS.trim name) (normalize email))
  | Throw e =>
      Hook.error (hook (snd (signUp name email password w)))
        = Some (errorMessage e "Registration failed") /\
      Hook.user (hook (snd (signUp name email password w))) = Hook.user (hook w)
  end.
Proof.
  destruct (signUp name email password w) as [[[]|e] w'] eqn:H; cbn [fst snd].
  - apply signUp_success_shape in H as (us & fs & _ & ->). repeat split.
  - apply signUp_throw_shape in H as (st & fs & t & -> & _). repeat split.
Qed.



End SignUpAlways.

(* ===================================================================== *)
(** ** The list of registered users *)
(* ===================================================================== *)

Section RegisteredList.

Lemma unused_not_elem (email : string) (us : list User.t) :
  existsb (has_email email) us = false ->
  email ∉ map User.email us.
Proof.
  induction us as [|v us IH]; cbn [existsb map].
  - intros _. apply not_elem_of_nil.
  - intros [Hv Hus]%orb_false_iff. apply not_elem_of_cons. split; [|now apply IH].
    intros ->. now rewrite has_email_refl in Hv.
Qed.

Lemma find_appended (email : string) (us : list User.t) (u : User.t) :
  existsb (has_email email) us = false ->
  has_email email u = true ->
  List.find (has_email email) (us ++ [u]) = Some u.
Proof.
  intros Hus Hu. induction us as [|v us IH]; cbn [app List.find existsb] in *.
  - now rewrite Hu.
  - apply orb_false_iff in Hus as [-> Hus]. now apply IH.
Qed.

(** X9: [signUp] keeps the addresses of the stored list pairwise distinct.
    In every world whose [users] slot holds a list without a repeated
    address, and whatever the store answers, the list after [signUp] is the
    same list or that list with the new record appended, and has no repeated
    address either. *)
Theorem signUp_keeps_emails_unique
    (w : World) (name email password : string) (us : list User.t) :
  persisted_users w = Some us ->
  NoDup (map User.email us) ->
  exists us' : list User.t,
    persisted_users (snd (signUp name email password w)) = Some us' /\
    NoDup (map User.email us') /\
    (us' = us \/ us' = us ++ [registered w (JS.trim name) (normalize email)]).
Proof.
  intros Hus Hnd.
  assert (Hsnoc : existsb (has_email (normalize email)) us = false ->
            NoDup (map User.email
                     (us ++ [registered w (JS.trim name) (normalize email)]))).
  { intros Hfresh. rewrite map_app. apply NoDup_app. split; [exact Hnd|].
    split; [|apply NoDup_singleton].
    intros x Hx [->|[]%elem_of_nil]%elem_of_cons.
    now apply (unused_not_elem _ _ Hfresh). }
  destruct (signUp name email password w) as [[[]|e] w'] eqn:H; cbn [snd].
  - pose proof H as Hshape.
    apply signUp_success_shape in Hshape as (us0 & fs & Hus0 & ->).
    rewrite Hus in Hus0. injection Hus0 as <-.
    exists (us ++ [registered w (JS.trim name) (normalize email)]).
    split; [apply (persisted_users_signed_up w)|]. split; [|now right].
    apply Hsnoc. exact (signUp_unused_on_return _ _ _ _ _ H us Hus).
  - apply signUp_throw_shape in H as (st & fs & t & -> & [->|(us0 & Hus0 & Hfresh & ->)]).
    + exists us. split; [exact Hus|]. split; [exact Hnd | now left].
    + rewrite Hus in Hus0. injection Hus0 as <-.
      exists (us ++ [registered w (JS.trim name) (normalize email)]).
      split; [|split; [now apply Hsnoc | now right]].
      unfold persisted_users. cbv [storage]. rewrite lookup_insert_eq.
      apply decode_users_stringify.
Qed.

Lemma signUp_keeps_emails_unique_witness :
  exists us' : list User.t,
    persisted_users (snd (signUp "Bob" "bob@ex.co" "password2" Sample.signed_out))
      = Some us' /\
    NoDup (map User.email us').
Proof.
  destruct (signUp_keeps_emails_unique Sample.signed_out "Bob" "bob@ex.co" "password2"
              [Sample.ann] ltac:(evaluate) ltac:(apply NoDup_singleton))
    as (us' & H & Hnd & _).
  exists us'. split; [exact H | exact Hnd].
Defined.

(** X10: [signUp] is not atomic over the two slots.  For an input that passes
    the checks and an unused address, when the list is read and written and
    the write of [currentUser] is then rejected, [signUp] raises that
    rejection and the session and the [currentUser] slot are as before, but
    the [users] slot already holds the new record; trying again with the same
    input fails with "User already exists with this email". *)
Theorem signUp_half_done
    (w : World) (name email password : string) (us : list User.t) (e : Thrown) :
  JS.trim name <> EmptyString ->
  JS.trim email <> EmptyString ->
  (8 <= JS.length password)%nat ->
  JS.includes email "@" = true ->
  JS.includes email "." = true ->
  faults w = [None; None; Some e] ->
  persisted_users w = Some us ->
  existsb (has_email (normalize email)) us = false ->
  fst (signUp name email password w) = Throw e /\
  Hook.user (hook (snd (signUp name email password w))) = Hook.user (hook w) /\
  storage (snd (signUp name email password w)) !! "currentUser"
    = storage w !! "currentUser" /\
  persisted_users (snd (signUp name email password w))
    = Some (us ++ [registered w (JS.trim name) (normalize email)]) /\
  fst (signUp name email password (snd (signUp name email password w)))
    = Throw (Error "User already exists with this email").
Proof.
  intros Hn He Hp Hat Hdot Hf Hus Hfresh.
  assert (Hrun : signUp name email password w =
    (Throw e,
     mkWorld
       (<["users" := JSON.stringify_Users
            (us ++ [registered w (JS.trim name) (normalize email)])]> (storage w))
       [] (now w + 1500) (Platform_OS w) (console w) (alerts w)
       (Hook.mk (Hook.user (hook w)) false
          (Some (errorMessage e "Registration failed"))))).
  { rewrite (signUp_checks_pass name email password Hn He Hp Hat Hdot).
    destruct w as [st fs t os con al [u l er]]. unfold mockApi.register. exec.
    subst fs. pose proof (normalized_keeps_at email Hat) as Hat'.
    fold (normalize email) in Hat'. rewrite Hat'.
    rewrite (proj2 (Nat.ltb_ge _ _) Hp). exec.
    rewrite (parse_or_empty_decode _ _ us Hus).
    change (existsb _ us) with (existsb (has_email (normalize email)) us).
    rewrite Hfresh. reflexivity. }
  rewrite Hrun. cbn [fst snd].
  assert (Hlist : persisted_users
            (mkWorld
               (<["users" := JSON.stringify_Users
                    (us ++ [registered w (JS.trim name) (normalize email)])]> (storage w))
               [] (now w + 1500) (Platform_OS w) (console w) (alerts w)
               (Hook.mk (Hook.user (hook w)) false
                  (Some (errorMessage e "Registration failed"))))
          = Some (us ++ [registered w (JS.trim name) (normalize email)])).
  { unfold persisted_users. cbv [storage]. rewrite lookup_insert_eq.
    apply decode_users_stringify. }
  split; [reflexivity|]. split; [reflexivity|].
  split; [cbv [storage]; now rewrite lookup_insert_ne|].
  split; [exact Hlist|].
  erewrite (signUp_taken_run name email password Hn He Hp Hat Hdot);
    [ reflexivity | reflexivity | exact Hlist
    | apply (appended_taken us (registered w (JS.trim name) (normalize email))) ].
Qed.

Lemma signUp_half_done_witness :
  fst (signUp "Ann" "ann@ex.co" "password1"
         (mkWorld ∅ [None; None; Some Sample.unavailable] 0 "ios" [] [] Hook.initial))
    = Throw Sample.unavailable.
Proof.
  destruct (signUp_half_done
              (mkWorld ∅ [None; None; Some Sample.unavailable] 0 "ios" [] [] Hook.initial)
              "Ann" "ann@ex.co" "password1" [] Sample.unavailable
              ltac:(evaluate) ltac:(evaluate) ltac:(evaluate) ltac:(evaluate)
              ltac:(evaluate) ltac:(evaluate) ltac:(evaluate) ltac:(evaluate))
    as (H & _).
  exact H.
Defined.

End RegisteredList.

(* ===================================================================== *)
(** ** [signIn], whatever the store does *)
(* ===================================================================== *)

Section SignInAlways.

(** A [signIn] that returns has found its record in the stored list. *)
Lemma signIn_return_shape (w w' : World) (email password : string) :
  signIn email password w = (Return tt, w') ->
  exists (us : list User.t) (u : User.t) (fs : list (option Thrown)),
    persisted_users w = Some us /\
    List.find (has_email (normalize email)) us = Some u /\
    w' = with_faults fs (signed_in_as w u).
Proof.
  destruct w as [st fs t os con al [u0 l er]].
  unfold signIn, signed_in_as. fold (normalize email). exec. intros H.
  destruct (JS.truthy (JS.trim email)); [|discriminate H].
  destruct (JS.truthy password); [|discriminate H].
  destruct (mockApi.login _ _ _) as [[u|e] w1] eqn:Hlog; [|discriminate H].
  apply login_shape in Hlog as [[fs1 ->] Hfound].
  destruct (Hfound u eq_refl) as (us & Hus & Hfind).
  exists us, u. exec.
  destruct fs1 as [|[e|] fs1]; [| discriminate H |]; injection H as <-; eauto.
Qed.

(** A [signIn] that raises has written nothing. *)
Lemma signIn_throw_shape (w w' : World) (email password : string) (e : Thrown) :
  signIn email password w = (Throw e, w') ->
  exists (fs : list (option Thrown)) (t : Z),
    w' = mkWorld (storage w) fs t (Platform_OS w) (console w) (alerts w)
           (Hook.mk (Hook.user (hook w)) false (Some (errorMessage e "Login failed"))).
Proof.
  destruct w as [st fs t os con al [u0 l er]].
  unfold signIn. fold (normalize email). exec. intros H.
  destruct (JS.truthy (JS.trim email)); [|injection H as <- <-; eauto].
  destruct (JS.truthy password); [|injection H as <- <-; eauto].
  destruct (mockApi.login _ _ _) as [[u|e'] w1] eqn:Hlog;
    apply login_shape in Hlog as [[fs1 ->] _]; exec.
  - destruct fs1 as [|[e1|] fs1]; [discriminate H | | discriminate H].
    injection H as <- <-. eauto.
  - injection H as <- <-. eauto.
Qed.

(** X11: the discipline of [signIn], in every world and whatever the store
    answers.  Afterwards [loading] is [false].  When [signIn] returns,
    [error] is absent and the session's user and the [currentUser] slot are
    the first stored record with the trimmed, lower-cased address.  When it
    raises, [error] holds the message of what was raised ("Login failed" for
    a value that is not an [Error]), and the session's user and the whole
    store are as before. *)
Theorem signIn_discipline (w : World) (email password : string) :
  Hook.loading (hook (snd (signIn email password w))) = false /\
  match fst (signIn email password w) with
  | Return _ =>
      Hook.error (hook (snd (signIn email password w))) = None /\
      exists (us : list User.t) (u : User.t),
        persisted_users w = Some us /\
        List.find (has_email (normalize email)) us = Some u /\
        Hook.user (hook (snd (signIn email password w))) = Some u /\
        persisted_currentUser (snd (signIn email password w)) = Some u
  | Throw e =>
      Hook.error (hook (snd (signIn email password w)))
        = Some (errorMessage e "Login failed") /\
      Hook.user (hook (snd (signIn email password w))) = Hook.user (hook w) /\
      storage (snd (signIn email password w)) = storage w
  end.
Proof.
  destruct (signIn email password w) as [[[]|e] w'] eqn:H; cbn [fst snd].
  - apply signIn_return_shape in H as (us & u & fs & Hus & Hfind & ->).
    split; [reflexivity|]. split; [reflexivity|]. exists us, u.
    split; [exact Hus|]. split; [exact Hfind|]. split; [reflexivity|].
    unfold persisted_currentUser. cbv [with_faults signed_in_as storage].
    rewrite lookup_insert_eq. apply parse_stringify_User.
  - apply signIn_throw_shape in H as (fs & t & ->). repeat split.
Qed.

(** X12: register, sign out, sign in.  After a successful [signUp] and
    [signOut], a [signIn] with any spelling of the address that trims and
    lower-cases to the same text, and with any non-empty password, returns and
    makes the registered record the session's user again. *)
Theorem signIn_after_signUp
    (w : World) (us : list User.t) (name email password email' password' : string) :
  JS.trim name <> EmptyString ->
  JS.trim email <> EmptyString ->
  (8 <= JS.length password)%nat ->
  JS.includes email "@" = true ->
  JS.includes email "." = true ->
  faults w = [] ->
  persisted_users w = Some us ->
  existsb (has_email (normalize email)) us = false ->
  normalize email' = normalize email ->
  password' <> EmptyString ->
  fst ((run signUp name email password; run signOut; signIn email' password') w)
    = Return tt /\
  Hook.user (hook (snd ((run signUp name email password; run signOut;
                         signIn email' password') w)))
    = Some (registered w (JS.trim name) (normalize email)).
Proof.
  intros Hn He Hp Hat Hdot Hf Hus Hfresh Hsame Hp'.
  assert (He' : JS.trim email' <> EmptyString).
  { intros E. pose proof (normalized_keeps_at email Hat) as H.
    fold (normalize email) in H. rewrite <- Hsame in H.
    unfold normalize in H. rewrite E in H. discriminate H. }
  unfold bind.
  rewrite (signUp_fresh_run name email password Hn He Hp Hat Hdot w us Hf Hus Hfresh).
  rewrite signOut_ok by exact Hf.
  erewrite (signIn_found_run email' password' He' Hp');
    [ split; reflexivity | exact Hf | | ].
  - unfold persisted_users. cbv [with_hook with_storage signed_up storage].
    rewrite lookup_delete_ne by discriminate.
    rewrite lookup_insert_ne by discriminate. rewrite lookup_insert_eq.
    apply decode_users_stringify.
  - rewrite Hsame. apply find_appended; [exact Hfresh | apply has_email_refl].
Qed.

Lemma signIn_after_signUp_witness :
  Hook.user (hook (snd ((run signUp " Ann " "Ann@Ex.Co" "password1"; run signOut;
                         signIn "  ANN@EX.CO " "x") Sample.fresh)))
    = Some (User.mk "1700000001500" "Ann" "ann@ex.co" (Some "2023-11-14T22:13:21.500Z")).
Proof.
  destruct (signIn_after_signUp Sample.fresh [] " Ann " "Ann@Ex.Co" "password1"
              "  ANN@EX.CO " "x"
              ltac:(evaluate) ltac:(evaluate) ltac:(evaluate) ltac:(evaluate)
              ltac:(evaluate) ltac:(evaluate) ltac:(evaluate) ltac:(evaluate)
              ltac:(evaluate) ltac:(evaluate)) as (_ & H).
  exact H.
Defined.

End SignInAlways.

(* ===================================================================== *)
(** ** [updateUser], beyond the failed read *)
(* ===================================================================== *)

Section UpdateUserAlways.

(** X13: with a session active and the store calls succeeding, [updateUser]
    returns, the session's user and the [currentUser] slot are the merged
    record, and the stored list is the old list in which every record
    carrying the session's [id] is replaced by the merged record: same
    length, same order, records with another [id] untouched. *)
Theorem updateUser_mirrors
    (w : World) (user : User.t) (userData : Partial.t) (us : list User.t) :
  Hook.user (hook w) = Some user ->
  faults w = [] ->
  persisted_users w = Some us ->
  fst (updateUser userData w) = Return tt /\
  Hook.user (hook (snd (updateUser userData w))) = Some (spread user userData) /\
  persisted_currentUser (snd (updateUser userData w)) = Some (spread user userData) /\
  persisted_users (snd (updateUser userData w))
    = Some (map (replace_by_id user (spread user userData)) us) /\
  (forall (i : nat) (u : User.t),
     us !! i = Some u -> User.id u <> User.id user ->
     map (replace_by_id user (spread user userData)) us !! i = Some u).
Proof.
  intros Hu Hf Hus.
  assert (Hframe : forall (i : nat) (u : User.t),
            us !! i = Some u -> User.id u <> User.id user ->
            map (replace_by_id user (spread user userData)) us !! i = Some u).
  { intros i u Hi Hid. change (map ?f us) with (f <$> us).
    rewrite list_lookup_fmap, Hi. cbn. unfold replace_by_id, JS.strict_eq.
    now rewrite (proj2 (String.eqb_neq _ _) Hid). }
  destruct w as [st fs t os con al [u0 l er]].
  unfold updateUser. exec. subst u0 fs.
  rewrite lookup_insert_ne by discriminate.
  unfold decode_users in Hus.
  destruct (st !! "users") as [s|] eqn:Hslot.
  - destruct (JS.truthy s) eqn:Ht.
    + rewrite Hus. cbv [fst snd hook storage Hook.user].
      split; [reflexivity|]. split; [reflexivity|].
      split; [rewrite lookup_insert_ne by discriminate; rewrite lookup_insert_eq;
              apply parse_stringify_User|].
      split; [rewrite lookup_insert_eq; apply decode_users_stringify | exact Hframe].
    + injection Hus as <-. cbv [fst snd hook storage Hook.user].
      split; [reflexivity|]. split; [reflexivity|].
      split; [rewrite lookup_insert_eq; apply parse_stringify_User|].
      split; [|exact Hframe].
      rewrite lookup_insert_ne by discriminate. rewrite Hslot.
      unfold decode_users. now rewrite Ht.
  - injection Hus as <-. cbv [fst snd hook storage Hook.user].
    split; [reflexivity|]. split; [reflexivity|].
    split; [rewrite lookup_insert_eq; apply parse_stringify_User|].
    split; [|exact Hframe].
    rewrite lookup_insert_ne by discriminate. now rewrite Hslot.
Qed.

Lemma updateUser_mirrors_witness :
  persisted_users (snd (updateUser Sample.rename (Sample.signed_in [])))
    = Some [User.mk "1700000000000" "Annie" "ann@ex.co" (Some "2023-11-14T22:13:20.000Z")].
Proof.
  destruct (updateUser_mirrors (Sample.signed_in []) Sample.ann Sample.rename
              [Sample.ann] ltac:(evaluate) ltac:(evaluate) ltac:(evaluate))
    as (_ & _ & _ & H & _).
  exact H.
Defined.

Lemma currentUser_written (st : gmap string string) (u : User.t) :
  match <["currentUser" := JSON.stringify_User u]> st !! "currentUser" with
  | Some s => JSON.parse_User s
  | None => None
  end = Some u.
Proof. rewrite lookup_insert_eq. apply parse_stringify_User. Qed.

Lemma currentUser_written_under (st : gmap string string) (u : User.t) (v : string) :
  match <["users" := v]> (<["currentUser" := JSON.stringify_User u]> st)
          !! "currentUser" with
  | Some s => JSON.parse_User s
  | None => None
  end = Some u.
Proof. rewrite lookup_insert_ne by discriminate. apply currentUser_written. Qed.

(** An [updateUser] that returns had a session to work on and has made the
    merged record the session's user and the content of [currentUser]. *)
Lemma updateUser_return_shape (w w' : World) (userData : Partial.t) :
  updateUser userData w = (Return tt, w') ->
  exists user : User.t,
    Hook.user (hook w) = Some user /\
    Hook.user (hook w') = Some (spread user userData) /\
    persisted_currentUser w' = Some (spread user userData) /\
    Hook.error (hook w') = Hook.error (hook w).
Proof.
  destruct w as [st fs t os con al [u l er]].
  unfold updateUser. exec. destruct u as [user|]; [|discriminate].
  destruct fs as [|[e|] fs]; [| discriminate |].
  - destruct (<["currentUser" := _]> st !! "users") as [s|];
      [|intros [= <-]; exists user; repeat split; apply currentUser_written].
    destruct (JS.truthy s);
      [|intros [= <-]; exists user; repeat split; apply currentUser_written].
    destruct (JSON.parse_Users s); [|discriminate].
    intros [= <-]. exists user; repeat split. apply currentUser_written_under.
  - destruct fs as [|[e|] fs]; [| discriminate |].
    + destruct (<["currentUser" := _]> st !! "users") as [s|];
        [|intros [= <-]; exists user; repeat split; apply currentUser_written].
      destruct (JS.truthy s);
        [|intros [= <-]; exists user; repeat split; apply currentUser_written].
      destruct (JSON.parse_Users s); [|discriminate].
      intros [= <-]. exists user; repeat split. apply currentUser_written_under.
    + destruct (<["currentUser" := _]> st !! "users") as [s|];
        [|intros [= <-]; exists user; repeat split; apply currentUser_written].
      destruct (JS.truthy s);
        [|intros [= <-]; exists user; repeat split; apply currentUser_written].
      destruct (JSON.parse_Users s); [|discriminate].
      destruct fs as [|[e|] fs]; [| discriminate |];
        intros [= <-]; exists user; repeat split; apply currentUser_written_under.
Qed.

(** An [updateUser] that raises has left the session's user alone and
    recorded the message. *)
Lemma updateUser_throw_shape (w w' : World) (userData : Partial.t) (e : Thrown) :
  updateUser userData w = (Throw e, w') ->
  Hook.user (hook w') = Hook.user (hook w) /\
  Hook.error (hook w') = Some (errorMessage e "Update failed").
Proof.
  destruct w as [st fs t os con al [u l er]].
  unfold updateUser. exec. destruct u as [user|]; [|intros [= <- <-]; split; reflexivity].
  destruct fs as [|[e0|] fs]; [| intros [= <- <-]; split; reflexivity |].
  - destruct (<["currentUser" := _]> st !! "users") as [s|]; [|discriminate].
    destruct (JS.truthy s); [|discriminate].
    destruct (JSON.parse_Users s); [discriminate|].
    intros [= <- <-]; split; reflexivity.
  - destruct fs as [|[e0|] fs]; [| intros [= <- <-]; split; reflexivity |].
    + destruct (<["currentUser" := _]> st !! "users") as [s|]; [|discriminate].
      destruct (JS.truthy s); [|discriminate].
      destruct (JSON.parse_Users s); [discriminate|].
      intros [= <- <-]; split; reflexivity.
    + destruct (<["currentUser" := _]> st !! "users") as [s|]; [|discriminate].
      destruct (JS.truthy s); [|discriminate].
      destruct (JSON.parse_Users s); [|intros [= <- <-]; split; reflexivity].
      destruct fs as [|[e0|] fs]; [discriminate | | discriminate].
      intros [= <- <-]; split; reflexivity.
Qed.

(** X14: the discipline of [updateUser], in every world and whatever the
    store answers.  When it raises, the session's user is the one from before
    and [error] holds the message of what was raised ("Update failed" for a
    value that is not an [Error]).  When it returns, a session was active, the
    session's user and the [currentUser] slot are the merged record, and
    [error] is untouched. *)
Theorem updateUser_discipline (w : World) (userData : Partial.t) :
  match fst (updateUser userData w) with
  | Return _ =>
      exists user : User.t,
        Hook.user (hook w) = Some user /\
        Hook.user (hook (snd (updateUser userData w))) = Some (spread user userData) /\
        persisted_currentUser (snd (updateUser userData w))
          = Some (spread user userData) /\
        Hook.error (hook (snd (updateUser userData w))) = Hook.error (hook w)
  | Throw e =>
      Hook.user (hook (snd (updateUser userData w))) = Hook.user (hook w) /\
      Hook.error (hook (snd (updateUser userData w)))
        = Some (errorMessage e "Update failed")
  end.
Proof.
  destruct (updateUser userData w) as [[[]|e] w'] eqn:H; cbn [fst snd].
  - exact (updateUser_return_shape w w' userData H).
  - exact (updateUser_throw_shape w w' userData e H).
Qed.

(** X15: [updateUser] is not atomic over the two slots.  When the write of
    [currentUser] is rejected the whole store is as before.  When that write
    and the read of the list succeed and the write of the list is rejected,
    [updateUser] raises with the [currentUser] slot holding the merged record
    while the stored list and the session's user are the old ones. *)
Theorem updateUser_half_done
    (w : World) (user : User.t) (userData : Partial.t)
    (e : Thrown) (fs : list (option Thrown)) :
  Hook.user (hook w) = Some user ->
  (faults w = Some e :: fs ->
     fst (updateUser userData w) = Throw e /\
     storage (snd (updateUser userData w)) = storage w) /\
  (forall (s : string) (us : list User.t),
     faults w = None :: None :: Some e :: fs ->
     storage w !! "users" = Some s -> JS.truthy s = true ->
     JSON.parse_Users s = Some us ->
     fst (updateUser userData w) = Throw e /\
     persisted_currentUser (snd (updateUser userData w)) = Some (spread user userData) /\
     storage (snd (updateUser userData w)) !! "users" = Some s /\
     Hook.user (hook (snd (updateUser userData w))) = Some user).
Proof.
  intros Hu. destruct w as [st fs' t os con al [u l er]].
  unfold updateUser. exec. subst u. split.
  - intros ->. split; reflexivity.
  - intros s us -> Hs Ht Hp. rewrite lookup_insert_ne by discriminate.
    rewrite Hs, Ht, Hp. cbv [fst snd hook storage Hook.user].
    split; [reflexivity|]. unfold persisted_currentUser. cbv [storage].
    split; [rewrite lookup_insert_eq; apply parse_stringify_User|].
    split; [|reflexivity]. now rewrite lookup_insert_ne.
Qed.

Lemma updateUser_half_done_witness :
  fst (updateUser Sample.rename (Sample.signed_in [Some Sample.unavailable]))
    = Throw Sample.unavailable /\
  storage (snd (updateUser Sample.rename (Sample.signed_in [Some Sample.unavailable])))
    = Sample.ann_store.
Proof.
  destruct (updateUser_half_done (Sample.signed_in [Some Sample.unavailable])
              Sample.ann Sample.rename Sample.unavailable [] ltac:(evaluate))
    as (H & _).
  exact (H ltac:(evaluate)).
Defined.

(** X16: an update survives a restart.  After an [updateUser] that returns,
    a hook mounted afresh on the store (the read succeeding) restores the
    merged record. *)
Theorem mount_after_updateUser (w w' : World) (userData : Partial.t) :
  updateUser userData w = (Return tt, w') ->
  Hook.user (hook (snd (mount (with_faults [] w')))) = Hook.user (hook w').
Proof.
  intros H. destruct (updateUser_return_shape w w' userData H) as (user & _ & Hu & Hc & _).
  unfold persisted_currentUser in Hc.
  destruct (storage w' !! "currentUser") as [s|] eqn:Hs; [|discriminate Hc].
  assert (Ht : JS.truthy s = true).
  { destruct s; [discriminate Hc | reflexivity]. }
  unfold mount. rewrite Hu.
  rewrite (restore_run _ s (spread user userData)); destruct w'; try reflexivity;
    assumption.
Qed.

Lemma mount_after_updateUser_witness :
  Hook.user (hook (snd (mount (with_faults []
     (snd (updateUser Sample.rename (Sample.signed_in [])))))))
    = Some (User.mk "1700000000000" "Annie" "ann@ex.co" (Some "2023-11-14T22:13:20.000Z")).
Proof.
  rewrite (mount_after_updateUser (Sample.signed_in [])
             (snd (updateUser Sample.rename (Sample.signed_in [])))
             Sample.rename ltac:(evaluate)).
  evaluate.
Defined.

End UpdateUserAlways.

(* ===================================================================== *)
(** ** More on trimming *)
(* ===================================================================== *)

Section Trimming.

Lemma trimStart_starts_clean (s : string) : starts_clean (JS.trimStart s) = true.
Proof.
  induction s as [|c s IH]; [reflexivity|]. cbn [JS.trimStart].
  destruct (JS.isWhiteSpace c) eqn:Hc; [exact IH | cbn; now rewrite Hc].
Qed.

Lemma trimStart_clean (s : string) : starts_clean s = true -> JS.trimStart s = s.
Proof.
  destruct s as [|c s]; [reflexivity|]. cbn.
  now destruct (JS.isWhiteSpace c).
Qed.

Lemma trimEnd_starts_clean (s : string) :
  starts_clean s = true -> starts_clean (JS.trimEnd s) = true.
Proof.
  destruct s as [|c s]; [reflexivity|]. cbn [starts_clean JS.trimEnd].
  intros Hc. destruct (JS.trimEnd s); [|exact Hc].
  destruct (JS.isWhiteSpace c) eqn:E; [discriminate Hc | cbn; now rewrite E].
Qed.

Lemma trimEnd_cons (c d : ascii) (s t : string) :
  JS.trimEnd s = String d t -> JS.trimEnd (String c s) = String c (String d t).
Proof. intros H. cbn [JS.trimEnd]. now rewrite H. Qed.

Lemma trimEnd_idempotent (s : string) : JS.trimEnd (JS.trimEnd s) = JS.trimEnd s.
Proof.
  induction s as [|c s IH]; [reflexivity|]. cbn [JS.trimEnd].
  destruct (JS.trimEnd s) as [|d t] eqn:Ht.
  - destruct (JS.isWhiteSpace c) eqn:Hc; [reflexivity|].
    cbn [JS.trimEnd]. now rewrite Hc.
  - apply trimEnd_cons, IH.
Qed.

(** [s.trim().trim()] is [s.trim()]. *)
Lemma trim_idempotent (s : string) : JS.trim (JS.trim s) = JS.trim s.
Proof.
  unfold JS.trim.
  rewrite (trimStart_clean (JS.trimEnd (JS.trimStart s))).
  - apply trimEnd_idempotent.
  - apply trimEnd_starts_clean, trimStart_starts_clean.
Qed.

Lemma trimStart_reflects (c : ascii) (s : string) :
  JS.includes (JS.trimStart s) (JSON.str1 c) = true ->
  JS.includes s (JSON.str1 c) = true.
Proof.
  induction s as [|d s IH]; [easy|]. cbn [JS.trimStart].
  destruct (JS.isWhiteSpace d); [|easy].
  intros H. rewrite includes_char_cons, IH by exact H. apply orb_true_r.
Qed.

Lemma trimEnd_reflects (c : ascii) (s : string) :
  JS.includes (JS.trimEnd s) (JSON.str1 c) = true ->
  JS.includes s (JSON.str1 c) = true.
Proof.
  induction s as [|d s IH]; [easy|]. cbn [JS.trimEnd].
  rewrite includes_char_cons.
  destruct (JS.trimEnd s) as [|x t].
  - destruct (JS.isWhiteSpace d); [discriminate|].
    rewrite includes_char_cons, includes_char_empty, orb_false_r. now intros ->.
  - rewrite includes_char_cons. intros [->|H]%orb_true_iff; [reflexivity|].
    rewrite IH by exact H. apply orb_true_r.
Qed.

(** Trimming never brings in a character. *)
Lemma trim_reflects (c : ascii) (s : string) :
  JS.includes (JS.trim s) (JSON.str1 c) = true ->
  JS.includes s (JSON.str1 c) = true.
Proof. intros H. now apply trimStart_reflects, trimEnd_reflects. Qed.

Lemma includes_append (c : ascii) (a b : string) :
  JS.includes (a +:+ b) (JSON.str1 c)
    = JS.includes a (JSON.str1 c) || JS.includes b (JSON.str1 c).
Proof.
  induction a as [|d a IH]; [reflexivity|].
  rewrite append_cons, !includes_char_cons, IH. apply orb_assoc.
Qed.

Lemma includes_nonempty (c : ascii) (s : string) :
  JS.includes s (JSON.str1 c) = true -> s <> EmptyString.
Proof. now destruct s. Qed.

End Trimming.

(* ===================================================================== *)
(** ** The registration screen *)
(* ===================================================================== *)

Section Screen.

Import RegisterScreen.

(** X17: a form that fails one of the screen's own checks (an empty field,
    passwords that differ, a password shorter than 8, terms not accepted) gets
    one "Validation" dialog and nothing else: [signUp] is not called, the
    world of the hook is untouched, and there is no navigation. *)
Theorem handleRegister_validation (s : RegisterScreen.t) :
  fullName (form s) = EmptyString \/ email (form s) = EmptyString \/
  password (form s) = EmptyString \/ confirmPassword (form s) = EmptyString \/
  password (form s) <> confirmPassword (form s) \/
  (JS.length (password (form s)) < 8)%nat \/
  agreeToTerms (form s) = false ->
  exists msg : string, handleRegister s = Alert_alert "Validation" msg s.
Proof.
  intros Hbad. unfold handleRegister. cbv zeta.
  destruct (JS.truthy (fullName (form s))) eqn:H1; [|cbn; eauto].
  destruct (JS.truthy (email (form s))) eqn:H2; [|cbn; eauto].
  destruct (JS.truthy (password (form s))) eqn:H3; [|cbn; eauto].
  destruct (JS.truthy (confirmPassword (form s))) eqn:H4; [|cbn; eauto].
  cbn [negb orb].
  destruct (JS.strict_eq (password (form s)) (confirmPassword (form s))) eqn:H5;
    [|cbn; eauto].
  cbn [negb].
  destruct (JS.length (password (form s)) <? 8)%nat eqn:H6; [eauto|].
  destruct (agreeToTerms (form s)) eqn:H7; [|cbn; eauto].
  exfalso. apply Nat.ltb_ge in H6. apply String.eqb_eq in H5.
  destruct Hbad as [E|[E|[E|[E|[E|[E|E]]]]]];
    try (rewrite E in *; discriminate); [contradiction | lia].
Qed.

Lemma handleRegister_validation_witness :
  exists msg : string,
    handleRegister
      (mk (mkForm "Ann" "ann@ex.co" "password1" "password2" true) Sample.fresh [] [])
    = Alert_alert "Validation" msg
        (mk (mkForm "Ann" "ann@ex.co" "password1" "password2" true) Sample.fresh [] []).
Proof.
  apply handleRegister_validation. do 4 right. left. evaluate.
Defined.


(** X19: a form that passes the checks of the screen and of the hook, with an
    address not yet registered and the store calls succeeding, is registered:
    one "Success" dialog, navigation to "Login", and the session's user is
    the new record, which carries the trimmed name and the trimmed,
    lower-cased address (the hook's second trimming changes nothing). *)
Theorem handleRegister_registers (s : RegisterScreen.t) (us : list User.t) :
  JS.trim (fullName (form s)) <> EmptyString ->
  JS.trim (email (form s)) <> EmptyString ->
  JS.includes (email (form s)) "@" = true ->
  JS.includes (email (form s)) "." = true ->
  password (form s) = confirmPassword (form s) ->
  (8 <= JS.length (password (form s)))%nat ->
  agreeToTerms (form s) = true ->
  faults (world s) = [] ->
  persisted_users (world s) = Some us ->
  existsb (has_email (normalize (email (form s)))) us = false ->
  handleRegister s =
    navigate "Login"
      (Alert_alert "Success" "Account created successfully!"
         (with_world
            (signed_up (world s) us
               (registered (world s) (JS.trim (fullName (form s)))
                  (normalize (email (form s)))))
            s)).
Proof.
  intros Hn He Hat Hdot Hsame Hlen Hagree Hf Hus Hfresh.
  assert (Hnorm : normalize (JS.trim (email (form s))) = normalize (email (form s))).
  { unfold normalize. now rewrite trim_idempotent. }
  unfold handleRegister. cbv zeta.
  assert (H1 : JS.truthy (fullName (form s)) = true).
  { destruct (fullName (form s)); [now contradiction Hn | reflexivity]. }
  assert (H2 : JS.truthy (email (form s)) = true).
  { destruct (email (form s)); [now contradiction He | reflexivity]. }
  assert (H3 : JS.truthy (password (form s)) = true).
  { destruct (password (form s)); [cbn in Hlen; lia | reflexivity]. }
  rewrite H1, H2, H3, <- Hsame, H3. cbn [negb orb].
  unfold JS.strict_eq. rewrite String.eqb_refl. cbn [negb].
  rewrite (proj2 (Nat.ltb_ge _ _) Hlen), Hagree. cbn [negb].
  rewrite (signUp_fresh_run (JS.trim (fullName (form s))) (JS.trim (email (form s)))
             (password (form s))) with (us := us).
  - now rewrite Hnorm, trim_idempotent.
  - now rewrite trim_idempotent.
  - now rewrite trim_idempotent.
  - exact Hlen.
  - now apply (trim_keeps "@").
  - now apply (trim_keeps ".").
  - exact Hf.
  - exact Hus.
  - now rewrite Hnorm.
Qed.

Lemma handleRegister_registers_witness :
  routes (handleRegister
            (mk (mkForm " Ann " " Ann@Ex.Co" "password1" "password1" true)
               Sample.fresh [] []))
    = ["Login"].
Proof.
  rewrite (handleRegister_registers
             (mk (mkForm " Ann " " Ann@Ex.Co" "password1" "password1" true)
                Sample.fresh [] []) []
             ltac:(evaluate) ltac:(evaluate) ltac:(evaluate) ltac:(evaluate)
             ltac:(evaluate) ltac:(evaluate) ltac:(evaluate) ltac:(evaluate)
             ltac:(evaluate) ltac:(evaluate)).
  reflexivity.
Defined.

(** X20: the screen's checks are weaker than the hook's.  A form that passes
    every check of the screen but whose name or address is blank, or whose
    address lacks an at-sign or a dot, reaches [signUp], which rejects it
    before any store call: the screen shows "Registration failed" with the
    hook's message and does not navigate; only [loading] and [error] of the
    hook have changed. *)
Theorem handleRegister_hook_rejects (s : RegisterScreen.t) :
  fullName (form s) <> EmptyString ->
  email (form s) <> EmptyString ->
  password (form s) = confirmPassword (form s) ->
  (8 <= JS.length (password (form s)))%nat ->
  agreeToTerms (form s) = true ->
  JS.trim (fullName (form s)) = EmptyString \/
  JS.trim (email (form s)) = EmptyString \/
  JS.includes (email (form s)) "@" = false \/
  JS.includes (email (form s)) "." = false ->
  exists msg : string,
    (msg = "All fields are required" \/
     msg = "Please enter a valid email address") /\
    handleRegister s =
      Alert_alert "Registration failed" msg
        (with_world
           (with_hook (Hook.mk (Hook.user (hook (world s))) false (Some msg)) (world s))
           s).
Proof.
  intros Hn He Hsame Hlen Hagree Hbad.
  unfold handleRegister. cbv zeta.
  assert (H1 : JS.truthy (fullName (form s)) = true) by now apply truthy_iff.
  assert (H2 : JS.truthy (email (form s)) = true) by now apply truthy_iff.
  assert (H3 : JS.truthy (password (form s)) = true).
  { destruct (password (form s)); [cbn in Hlen; lia | reflexivity]. }
  rewrite H1, H2, H3, <- Hsame, H3. cbn [negb orb].
  unfold JS.strict_eq. rewrite String.eqb_refl. cbn [negb].
  rewrite (proj2 (Nat.ltb_ge _ _) Hlen), Hagree. cbn [negb].
  destruct (world s) as [st fs t os con al [u l er]]. unfold signUp. exec.
  rewrite !trim_idempotent, H3, (proj2 (Nat.ltb_ge _ _) Hlen).
  destruct (JS.truthy (JS.trim (fullName (form s)))) eqn:Tn;
    [|eexists; split; [left; reflexivity | reflexivity]].
  destruct (JS.truthy (JS.trim (email (form s)))) eqn:Te;
    [|eexists; split; [left; reflexivity | reflexivity]].
  destruct (JS.includes (JS.trim (email (form s))) "@") eqn:Tat;
    [|eexists; split; [right; reflexivity | reflexivity]].
  destruct (JS.includes (JS.trim (email (form s))) ".") eqn:Tdot;
    [|eexists; split; [right; reflexivity | reflexivity]].
  exfalso. apply (trim_reflects "@") in Tat. apply (trim_reflects ".") in Tdot.
  unfold JSON.str1 in Tat, Tdot.
  destruct Hbad as [E|[E|[E|E]]];
    [ rewrite E in Tn | rewrite E in Te | rewrite E in Tat | rewrite E in Tdot ];
    discriminate.
Qed.

Lemma handleRegister_hook_rejects_witness :
  exists msg : string,
    dialogs (handleRegister
               (mk (mkForm "   " "ann@ex.co" "password1" "password1" true)
                  Sample.fresh [] []))
      = [("Registration failed", msg)].
Proof.
  destruct (handleRegister_hook_rejects
              (mk (mkForm "   " "ann@ex.co" "password1" "password1" true)
                 Sample.fresh [] [])
              ltac:(evaluate) ltac:(evaluate) ltac:(evaluate) ltac:(evaluate)
              ltac:(evaluate) ltac:(left; evaluate)) as (msg & _ & H).
  exists msg. rewrite H. reflexivity.
Defined.

(** Whatever the provider, the triple [handleSocialRegister] makes up passes
    every precondition check of [signUp]; its password has exactly the
    minimum length. *)
Lemma social_inputs_pass (provider : string) :
  JS.trim (provider +:+ " User") <> EmptyString /\
  JS.trim (JS.toLowerCase provider +:+ "@example.com") <> EmptyString /\
  (8 <= JS.length "password")%nat /\
  JS.includes (JS.toLowerCase provider +:+ "@example.com") "@" = true /\
  JS.includes (JS.toLowerCase provider +:+ "@example.com") "." = true.
Proof.
  assert (Hat : JS.includes (JS.toLowerCase provider +:+ "@example.com") "@" = true).
  { rewrite (includes_append "@"). apply orb_true_r. }
  assert (Hdot : JS.includes (JS.toLowerCase provider +:+ "@example.com") "." = true).
  { rewrite (includes_append "."). apply orb_true_r. }
  split; [|split; [|split; [cbn; lia | split; [exact Hat | exact Hdot]]]].
  - apply (includes_nonempty "U"), (trim_keeps "U"); [reflexivity|].
    rewrite (includes_append "U"). apply orb_true_r.
  - apply (includes_nonempty "@"), (trim_keeps "@"); [reflexivity | exact Hat].
Qed.

Lemma handleSocialRegister_run
    (s : RegisterScreen.t) (provider : string) (us : list User.t) :
  faults (world s) = [] ->
  persisted_users (world s) = Some us ->
  existsb (has_email (normalize (JS.toLowerCase provider +:+ "@example.com"))) us
    = false ->
  handleSocialRegister provider s =
    navigate "Login"
      (Alert_alert "Success" "Account created successfully!"
         (with_world
            (signed_up (world s) us
               (registered (world s) (JS.trim (provider +:+ " User"))
                  (normalize (JS.toLowerCase provider +:+ "@example.com"))))
            s)).
Proof.
  intros Hf Hus Hfresh.
  destruct (social_inputs_pass provider) as (Hn & He & Hp & Hat & Hdot).
  unfold handleSocialRegister. cbv zeta.
  now rewrite (signUp_fresh_run _ _ _ Hn He Hp Hat Hdot (world s) us Hf Hus Hfresh).
Qed.

Lemma handleSocialRegister_taken_run
    (s : RegisterScreen.t) (provider : string) (us : list User.t) :
  faults (world s) = [] ->
  persisted_users (world s) = Some us ->
  existsb (has_email (normalize (JS.toLowerCase provider +:+ "@example.com"))) us
    = true ->
  handleSocialRegister provider s =
    Alert_alert "Social registration failed" "User already exists with this email"
      (with_world (rejected (world s) 1500 "User already exists with this email") s).
Proof.
  intros Hf Hus Htaken.
  destruct (social_inputs_pass provider) as (Hn & He & Hp & Hat & Hdot).
  unfold handleSocialRegister. cbv zeta.
  now rewrite (signUp_taken_run _ _ _ Hn He Hp Hat Hdot (world s) us Hf Hus Htaken).
Qed.

(** X21: a social sign-up never trips the validation of [signUp].  For every
    provider name, with the store calls succeeding and the made-up address
    (the lower-cased provider followed by "@example.com") not yet registered,
    the demo account is created: one "Success" dialog, navigation to "Login",
    and the session's user is the new record. *)
Theorem handleSocialRegister_registers
    (s : RegisterScreen.t) (provider : string) (us : list User.t) :
  faults (world s) = [] ->
  persisted_users (world s) = Some us ->
  existsb (has_email (normalize (JS.toLowerCase provider +:+ "@example.com"))) us
    = false ->
  handleSocialRegister provider s =
    navigate "Login"
      (Alert_alert "Success" "Account created successfully!"
         (with_world
            (signed_up (world s) us
               (registered (world s) (JS.trim (provider +:+ " User"))
                  (normalize (JS.toLowerCase provider +:+ "@example.com"))))
            s)).
Proof.
  intros Hf Hus Hfresh.
  destruct (social_inputs_pass provider) as (Hn & He & Hp & Hat & Hdot).
  unfold handleSocialRegister. cbv zeta.
  now rewrite (signUp_fresh_run _ _ _ Hn He Hp Hat Hdot (world s) us Hf Hus Hfresh).
Qed.

Lemma handleSocialRegister_registers_witness :
  Hook.user (hook (world (handleSocialRegister "Google"
                            (mk (mkForm "" "" "" "" false) Sample.fresh [] []))))
    = Some (User.mk "1700000001500" "Google User" "google@example.com"
              (Some "2023-11-14T22:13:21.500Z")).
Proof.
  rewrite (handleSocialRegister_registers
             (mk (mkForm "" "" "" "" false) Sample.fresh [] []) "Google" []
             ltac:(evaluate) ltac:(evaluate) ltac:(evaluate)).
  evaluate.
Defined.

(** X22: a provider yields one demo account.  After a social sign-up that
    went through, pressing the button of the same provider again (or of one
    whose name differs only in letter case) shows "Social registration
    failed" with "User already exists with this email", does not navigate a
    second time, and leaves the stored list with the single new record. *)
Theorem handleSocialRegister_twice
    (s : RegisterScreen.t) (provider provider' : string) (us : list User.t) :
  faults (world s) = [] ->
  persisted_users (world s) = Some us ->
  existsb (has_email (normalize (JS.toLowerCase provider +:+ "@example.com"))) us
    = false ->
  JS.toLowerCase provider' = JS.toLowerCase provider ->
  dialogs (handleSocialRegister provider' (handleSocialRegister provider s))
    = dialogs s ++ [("Success", "Account created successfully!");
                    ("Social registration failed",
                     "User already exists with this email")] /\
  routes (handleSocialRegister provider' (handleSocialRegister provider s))
    = routes s ++ ["Login"] /\
  persisted_users
    (world (handleSocialRegister provider' (handleSocialRegister provider s)))
    = Some (us ++ [registered (world s) (JS.trim (provider +:+ " User"))
                     (normalize (JS.toLowerCase provider +:+ "@example.com"))]).
Proof.
  intros Hf Hus Hfresh Hsame.
  rewrite (handleSocialRegister_run s provider us Hf Hus Hfresh).
  erewrite (handleSocialRegister_taken_run _ provider');
    [ | exact Hf | apply (persisted_users_signed_up (world s))
      | rewrite Hsame;
        apply (appended_taken us
                 (registered (world s) (JS.trim (provider +:+ " User"))
                    (normalize (JS.toLowerCase provider +:+ "@example.com")))) ].
  cbv [dialogs routes world navigate Alert_alert with_world].
  split; [now rewrite <- app_assoc|]. split; [reflexivity|].
  apply (persisted_users_signed_up (world s)).
Qed.

Lemma handleSocialRegister_twice_witness :
  routes (handleSocialRegister "GOOGLE"
            (handleSocialRegister "Google"
               (mk (mkForm "" "" "" "" false) Sample.fresh [] [])))
    = ["Login"].
Proof.
  destruct (handleSocialRegister_twice
              (mk (mkForm "" "" "" "" false) Sample.fresh [] []) "Google" "GOOGLE" []
              ltac:(evaluate) ltac:(evaluate) ltac:(evaluate) ltac:(evaluate))
    as (_ & H & _).
  exact H.
Defined.



End Screen.

(* ===================================================================== *)
(** ** Two more facts about sessions *)
(* ===================================================================== *)

Section Sessions.

(** X24: a registration survives a restart.  After a [signUp] that returns,
    a hook mounted afresh on the store (the read succeeding) restores the
    record that [signUp] made the session's user. *)
Theorem mount_after_signUp (w w' : World) (name email password : string) :
  signUp name email password w = (Return tt, w') ->
  fst (mount (with_faults [] w')) = Return tt /\
  Hook.user (hook (snd (mount (with_faults [] w')))) = Hook.user (hook w') /\
  Hook.user (hook w') = Some (registered w (JS.trim name) (normalize email)).
Proof.
  intros (us & fs & Hus & ->)%signUp_success_shape. unfold mount.
  rewrite (restore_run _
             (JSON.stringify_User (registered w (JS.trim name) (normalize email)))
             (registered w (JS.trim name) (normalize email)));
    [ repeat split | reflexivity | apply lookup_insert_eq
    | apply stringify_User_truthy | apply parse_stringify_User ].
Qed.

Lemma mount_after_signUp_witness :
  Hook.user (hook (snd (mount (with_faults []
     (snd (signUp "Ann" "ann@ex.co" "password1" Sample.fresh))))))
    = Some (User.mk "1700000001500" "Ann" "ann@ex.co" (Some "2023-11-14T22:13:21.500Z")).
Proof.
  destruct (mount_after_signUp Sample.fresh
              (snd (signUp "Ann" "ann@ex.co" "password1" Sample.fresh))
              "Ann" "ann@ex.co" "password1" ltac:(evaluate)) as (_ & H & _).
  rewrite H. evaluate.
Defined.

(** X25: a [signIn] with a blank address or an empty password is rejected on
    the spot with "Email and password are required": no store call is made,
    no time passes, and apart from [loading] and [error] the world is as it
    was. *)
Theorem signIn_rejects_early (w : World) (email password : string) :
  JS.trim email = EmptyString \/ password = EmptyString ->
  signIn email password w =
    (Throw (Error "Email and password are required"),
     with_hook (Hook.mk (Hook.user (hook w)) false
                  (Some "Email and password are required")) w).
Proof.
  intros Hbad. destruct w as [st fs t os con al [u l er]]. unfold signIn. exec.
  destruct Hbad as [->| ->]; [reflexivity|].
  now destruct (JS.truthy (JS.trim email)).
Qed.

Lemma signIn_rejects_early_witness :
  storage (snd (signIn "   " "secret" Sample.signed_out)) = storage Sample.signed_out /\
  now (snd (signIn "   " "secret" Sample.signed_out)) = now Sample.signed_out.
Proof.
  rewrite (signIn_rejects_early Sample.signed_out "   " "secret" ltac:(left; evaluate)).
  split; reflexivity.
Defined.

End Sessions.
